(** * The resolve-fetch-retry pipeline of pyforce_evaluation_v2

    A shallow embedding of
    - [Fetch_benign_packages/bengin_simply_download.py] (class [PyPIDownloader]):
      metadata resolution with fallback, artifact selection, the
      downloaded-set index, the per-package fetch worker, the pool
      coordinator and the statistics reducer;
    - [Preprocess_packages/process_benign.py]: the mirror download and
      its multi-round retry ([retry_failed_downloads]).

    Conventions.
    - Python [str] values are [string]; package names, URLs and file
      names are ASCII, so [str.lower] is the ASCII lower-casing.
    - The network is an oracle: the answer to [requests.get url] may
      depend on the number of requests issued before it, which is part of
      the program state.  [time.sleep] and logging have no effect on the
      values computed and are left out.
    - Code that can raise runs in a state-and-exception monad; every
      [try]/[except] of the source is a handler in the model.
    - The calls submitted to the thread pool run concurrently on the
      state they share; the pool coordinator takes what each call ended
      with, and when, as given by the run.
    - A [set] is a [gset], the files of a directory are a [gmap] from
      file name to contents, JSON dictionaries whose order matters are
      association lists. *)

From Stdlib Require Import ZArith Ascii String PrimFloat Uint63.
From stdpp Require Import base option list gmap strings sets fin_maps.

Local Open Scope string_scope.
Local Open Scope list_scope.
Local Open Scope Z_scope.

(** ** Python string operations *)

Module PyStr.

(** [c.lower()] on one ASCII character. *)
Definition lower_ascii (c : ascii) : ascii :=
  let n := nat_of_ascii c in
  if ((65 <=? n) && (n <=? 90))%nat then ascii_of_nat (n + 32) else c.

(** [s.lower()] *)
Fixpoint lower (s : string) : string :=
  match s with
  | EmptyString => EmptyString
  | String c s' => String (lower_ascii c) (lower s')
  end.

(** [s.startswith(p)] *)
Definition startswith (s p : string) : bool := String.prefix p s.

(** [s[n:]] *)
Fixpoint drop (n : nat) (s : string) : string :=
  match n, s with
  | O, _ => s
  | S _, EmptyString => EmptyString
  | S n', String _ s' => drop n' s'
  end.

(** [s.endswith(p)] *)
Definition endswith (s p : string) : bool :=
  (String.length p <=? String.length s)%nat &&
  String.eqb (drop (String.length s - String.length p) s) p.

(** [sub in s] *)
Fixpoint contains (sub s : string) : bool :=
  String.prefix sub s ||
  match s with
  | EmptyString => false
  | String _ s' => contains sub s'
  end.

(** [s.replace(old, new)] for a non-empty [old]: occurrences are replaced
    from left to right and do not overlap.  [skip] counts the characters
    of an occurrence that are still to be passed over. *)
Fixpoint replace_from (old new : string) (skip : nat) (s : string) : string :=
  match s with
  | EmptyString => EmptyString
  | String c s' =>
      match skip with
      | S k => replace_from old new k s'
      | O =>
          if String.prefix old s
          then new +:+ replace_from old new (String.length old - 1) s'
          else String c (replace_from old new O s')
      end
  end.

Definition replace (s old new : string) : string := replace_from old new O s.

(** [s.split(sep)[0]] for a one-character separator: the text before the
    first separator (the whole string when there is none). *)
Fixpoint split_head (sep : ascii) (s : string) : string :=
  match s with
  | EmptyString => EmptyString
  | String c s' => if Ascii.eqb c sep then EmptyString else String c (split_head sep s')
  end.

(** [os.path.basename(p)]: the text after the last slash. *)
Fixpoint basename (p : string) : string :=
  match p with
  | EmptyString => EmptyString
  | String c p' =>
      if Ascii.eqb c "/"%char then basename p'
      else if contains "/" p' then basename p' else p
  end.

(** [s.rfind(".")] as the text from the last dot on, [None] when there
    is no dot. *)
Fixpoint from_last_dot (s : string) : option string :=
  match s with
  | EmptyString => None
  | String c s' =>
      match from_last_dot s' with
      | Some t => Some t
      | None => if Ascii.eqb c "."%char then Some s else None
      end
  end.

(** [pathlib.PurePath.suffix] of a file name: the last dot-separated
    component with its dot, empty when the only dot is the first or the
    last character. *)
Definition path_suffix (name : string) : string :=
  match from_last_dot name with
  | None => EmptyString
  | Some t =>
      let i := (String.length name - String.length t)%nat in
      if ((0 <? i) && (i <? String.length name - 1))%nat then t else EmptyString
  end.

(** Truth value of a string: only the empty string is false. *)
Definition truthy (s : string) : bool := negb (String.eqb s EmptyString).

(** [c.isspace()] on one ASCII character: tab to carriage return, the
    four separators 28 to 31, and the space. *)
Definition is_space (c : ascii) : bool :=
  let n := nat_of_ascii c in
  ((9 <=? n) && (n <=? 13) || (28 <=? n) && (n <=? 32))%nat.

(** [s.lstrip()] *)
Fixpoint lstrip (s : string) : string :=
  match s with
  | EmptyString => EmptyString
  | String c s' => if is_space c then lstrip s' else s
  end.

(** [s.rstrip()] *)
Fixpoint rstrip (s : string) : string :=
  match s with
  | EmptyString => EmptyString
  | String c s' =>
      match rstrip s' with
      | EmptyString => if is_space c then EmptyString else String c EmptyString
      | r => String c r
      end
  end.

(** [s.strip()] *)
Definition strip (s : string) : string := rstrip (lstrip s).

End PyStr.

(** ** Exceptions, HTTP responses and the network oracle *)

(** The exception classes the handlers of the source tell apart:
    [requests.exceptions.Timeout], the other subclasses of
    [requests.exceptions.RequestException], and every other [Exception]
    with its [str(e)]. *)
Inductive exn : Type :=
  | Timeout
  | RequestException
  | OtherException (msg : string).

(** One entry of [releases[version]].  A field is [None] when the key is
    absent from the JSON object. *)
Record release_file : Type := ReleaseFile {
  packagetype : option string;
  filename : option string;
  url : option string
}.

(** The registry's metadata document: [info.version] ([None] when [info]
    or [version] is absent) and [releases] ([None] when absent), a
    dictionary in document order with distinct keys.  The values at
    these positions have the types of the registry's interface: strings,
    and lists of release files. *)
Record metadata : Type := Metadata {
  info_version : option string;
  releases : option (list (string * list release_file))
}.

(** The [content-length] header: absent, present but refused by [int]
    with the given message, or an integer. *)
Inductive length_header : Type :=
  | NoLength
  | BadLength (msg : string)
  | Length (n : Z).

(** What the source reads off a [requests.Response]: [status_code],
    [json()] ([None] when the body is not a JSON document), the matches
    of the file-listing pattern in [text], the [content-length] header,
    and the chunks [iter_content] yields, after which the stream either
    ends or raises. *)
Record response : Type := Response {
  status_code : Z;
  json : option metadata;
  links : list (string * string);
  content_length : length_header;
  chunks : list (list Byte.byte);
  stream_error : option exn
}.

(** The answer to the [n]-th request of the run, for a URL. *)
Definition network : Type := nat → string → exn + response.

(** ** The state-and-exception monad *)

Definition M (S A : Type) : Type := S → (exn + A) * S.

Definition ret {S A} (a : A) : M S A := λ σ, (inr a, σ).

Definition raise {S A} (e : exn) : M S A := λ σ, (inl e, σ).

Definition bind {S A B} (m : M S A) (k : A → M S B) : M S B :=
  λ σ, match m σ with
       | (inl e, σ') => (inl e, σ')
       | (inr a, σ') => k a σ'
       end.

(** [try: body except ...: handler] *)
Definition try_except {S A} (body : M S A) (handler : exn → M S A) : M S A :=
  λ σ, match body σ with
       | (inl e, σ') => handler e σ'
       | (inr a, σ') => (inr a, σ')
       end.

Definition gets {S A} (f : S → A) : M S A := λ σ, (inr (f σ), σ).

Definition modify {S} (f : S → S) : M S unit := λ σ, (inr tt, f σ).

(** A computation without effect on the state. *)
Definition lift {S A} (r : exn + A) : M S A := λ σ, (r, σ).

Declare Scope py_scope.
Delimit Scope py_scope with py.
Notation "x <- m ;; k" := (bind m (λ x, k))
  (at level 100, m at next level, right associativity) : py_scope.
Notation "m ;; k" := (bind m (λ _, k))
  (at level 100, right associativity) : py_scope.

(** [response.raise_for_status()] *)
Definition raise_for_status (r : response) : exn + unit :=
  if (400 <=? status_code r) && (status_code r <? 600) then inl RequestException else inr tt.

(** [response.json()] *)
Definition response_json (r : response) : exn + metadata :=
  match json r with
  | Some d => inr d
  | None => inl RequestException
  end.

(** [d[key]] on a dictionary in document order. *)
Fixpoint assoc {A} (key : string) (d : list (string * A)) : option A :=
  match d with
  | [] => None
  | (k, v) :: d' => if String.eqb k key then Some v else assoc key d'
  end.

(** ** [bengin_simply_download.py]: class [PyPIDownloader] *)

Module Fetch.

(** [status] of a result dictionary. *)
Inductive status : Type := success | skipped | failed.

Global Instance status_eq_dec : EqDecision status.
Proof. solve_decision. Defined.

(** The result dictionary of one package: [name] and [status] are always
    present, the other keys only in some results. *)
Record FetchResult : Type := Result {
  r_name : string;
  r_status : status;
  r_reason : option string;
  r_filename : option string;
  r_size : option Z;
  r_url : option string
}.

(** The object state together with the part of the world it acts on:
    the URLs requested so far (newest first), the regular files of
    [output_dir] by name, and [self.downloaded_packages]. *)
Record downloader : Type := Downloader {
  requested : list string;
  files : gmap string (list Byte.byte);
  downloaded_packages : gset string
}.

Definition set_files (f : gmap string (list Byte.byte) → gmap string (list Byte.byte))
    (σ : downloader) : downloader :=
  {| requested := requested σ; files := f (files σ);
     downloaded_packages := downloaded_packages σ |}.

Definition set_downloaded (f : gset string → gset string) (σ : downloader) : downloader :=
  {| requested := requested σ; files := files σ;
     downloaded_packages := f (downloaded_packages σ) |}.

(** The state after a request for [url]. *)
Definition sent (url : string) (σ : downloader) : downloader :=
  {| requested := url :: requested σ; files := files σ;
     downloaded_packages := downloaded_packages σ |}.

(** The URLs requested on the way from state [σ] to state [σ'], newest
    first. *)
Definition new_requests (σ σ' : downloader) : list string :=
  take (length (requested σ') - length (requested σ)) (requested σ').

Definition base_url : string := "https://pypi.org/pypi/".

(** The URLs of the two metadata endpoints. *)
Definition json_url (package_name : string) : string :=
  base_url +:+ package_name +:+ "/json".

Definition simple_url (package_name : string) : string :=
  "https://pypi.org/simple/" +:+ package_name +:+ "/".

(** *** The downloaded-set index *)

(** [extract_package_name]: [str.split] never returns an empty list, so
    the [return None] of the source is not reached. *)
Definition extract_package_name (filename : string) : option string :=
  let name := PyStr.replace (PyStr.replace (PyStr.replace filename ".tar.gz" "") ".whl" "") ".zip" "" in
  Some (PyStr.lower (PyStr.split_head "-" name)).

(** The body of the loop of [load_existing_packages] for one directory
    entry [item] (every entry of the modelled directory is a file). *)
Definition load_item (item : string) (downloaded : gset string) : gset string :=
  if bool_decide (PyStr.path_suffix item ∈ [".whl"; ".tar.gz"; ".zip"]) then
    match extract_package_name item with
    | Some package_name =>
        if PyStr.truthy package_name then {[ PyStr.lower package_name ]} ∪ downloaded
        else downloaded
    | None => downloaded
    end
  else downloaded.

(** [output_dir.iterdir()] *)
Definition iterdir (σ : downloader) : list string := elements (dom (files σ)).

Definition load_existing_packages (σ : downloader) : downloader :=
  set_downloaded (λ downloaded, foldr load_item downloaded (iterdir σ)) σ.

(** [PyPIDownloader(output_dir)] in a world where [history] requests were
    made and [output_dir] holds [dir]. *)
Definition init (history : list string) (dir : gmap string (list Byte.byte)) : downloader :=
  load_existing_packages {| requested := history; files := dir; downloaded_packages := ∅ |}.

(** *** Artifact selection *)

(** [[f for f in files if f['packagetype'] == t]]: a [KeyError] when an
    entry has no [packagetype]. *)
Fixpoint files_of_type (t : string) (files : list release_file) : exn + list release_file :=
  match files with
  | [] => inr []
  | f :: rest =>
      match packagetype f with
      | None => inl (OtherException "'packagetype'")
      | Some p =>
          match files_of_type t rest with
          | inl e => inl e
          | inr selected => inr (if String.eqb p t then f :: selected else selected)
          end
      end
  end.

(** [f['url']] *)
Definition file_url (f : release_file) : exn + option string :=
  match url f with
  | Some u => inr (Some u)
  | None => inl (OtherException "'url'")
  end.

(** The selection among the files of the latest release: the URL returned,
    or [None] when control falls through to the final [return None]. *)
Definition select_artifact (files : list release_file) : exn + option string :=
  match files_of_type "sdist" files with
  | inl e => inl e
  | inr (f :: _) => file_url f
  | inr [] =>
      match files_of_type "bdist_wheel" files with
      | inl e => inl e
      | inr (f :: _) => file_url f
      | inr [] => inr None
      end
  end.

(** The selection among the links of the file-listing page. *)
Definition select_link (links : list (string * string)) : option string :=
  match links with
  | [] => None
  | _ =>
      let source_dists :=
        (filter (λ link, PyStr.endswith link.1 ".tar.gz" || PyStr.endswith link.1 ".zip") links).*1 in
      match source_dists with
      | u :: _ => Some u
      | [] =>
          let wheels := (filter (λ link, PyStr.endswith link.1 ".whl" : bool) links).*1 in
          match wheels with
          | u :: _ => Some u
          | [] => None
          end
      end
  end.

(** A link to a source archive, and a link to a wheel, as the
    file-listing strategy tells them apart. *)
Definition source_link (link : string * string) : Prop :=
  PyStr.endswith link.1 ".tar.gz" || PyStr.endswith link.1 ".zip".

Definition wheel_link (link : string * string) : Prop :=
  PyStr.endswith link.1 ".whl".

Global Instance source_link_dec link : Decision (source_link link).
Proof. unfold source_link. apply _. Defined.

Global Instance wheel_link_dec link : Decision (wheel_link link).
Proof. unfold wheel_link. apply _. Defined.

(** The type of a release file as the selection reads it. *)
Definition has_type (t : string) (f : release_file) : Prop := packagetype f = Some t.

Global Instance has_type_dec t f : Decision (has_type t f).
Proof. unfold has_type. apply _. Defined.

(** An entry with the keys the selection reads. *)
Definition complete (f : release_file) : Prop :=
  is_Some (packagetype f) ∧ is_Some (url f).

Global Instance complete_dec f : Decision (complete f).
Proof. unfold complete. apply _. Defined.

(** The precedence in the words of the specification: the first-listed
    source distribution, else the first-listed wheel, else nothing. *)
Definition choose (files : list release_file) : option string :=
  match List.find (λ f, bool_decide (has_type "sdist" f)) files with
  | Some f => url f
  | None =>
      match List.find (λ f, bool_decide (has_type "bdist_wheel" f)) files with
      | Some f => url f
      | None => None
      end
  end.

(** The lookups that fail: a transport failure, a 404 or another error
    status, and for the JSON endpoint a body that is not a document, a
    document without [info.version], or a latest release on whose files
    the selection raises. *)
Definition json_lookup_fails (answer : exn + response) : Prop :=
  match answer with
  | inl _ => True
  | inr r =>
      status_code r = 404 ∨ raise_for_status r ≠ inr tt ∨ json r = None ∨
      (∃ d, json r = Some d ∧ info_version d = None) ∨
      (∃ d v fs e, json r = Some d ∧ info_version d = Some v ∧
                   assoc v (default [] (releases d)) = Some fs ∧
                   select_artifact fs = inl e)
  end.

Definition listing_lookup_fails (answer : exn + response) : Prop :=
  match answer with
  | inl _ => True
  | inr r => status_code r = 404 ∨ raise_for_status r ≠ inr tt
  end.

Section Downloader.

Variable net : network.

Local Open Scope py_scope.

(** [requests.get(url, ...)]: the oracle answers, the request is recorded. *)
Definition requests_get (url : string) : M downloader response :=
  λ σ, (net (length (requested σ)) url, sent url σ).

(** *** Resolution *)

Definition get_package_info_from_json (package_name : string) : M downloader (option string) :=
  try_except
    (let url := json_url package_name in
     response <- requests_get url ;;
     if status_code response =? 404 then ret None
     else
       lift (raise_for_status response) ;;
       data <- lift (response_json response) ;;
       latest_version <-
         lift (match info_version data with
               | Some v => inr v
               | None => inl (OtherException "'info'")
               end) ;;
       let releases := default [] (releases data) in
       match assoc latest_version releases with
       | Some (f :: fs) => lift (select_artifact (f :: fs))
       | Some [] => ret None
       | None => ret None
       end)
    (λ e, match e with
          | Timeout | RequestException => ret None
          | OtherException _ => ret None
          end).

Definition get_package_download_url_fallback (package_name : string)
    : M downloader (option string) :=
  try_except
    (let simple_url := simple_url package_name in
     response <- requests_get simple_url ;;
     if status_code response =? 404 then ret None
     else
       lift (raise_for_status response) ;;
       ret (select_link (links response)))
    (λ _, ret None).

(** Truth value of a returned URL: [None] and the empty string are false. *)
Definition url_truthy (u : option string) : bool :=
  match u with
  | Some s => PyStr.truthy s
  | None => false
  end.

Definition get_package_download_url (package_name : string) : M downloader (option string) :=
  url <- get_package_info_from_json package_name ;;
  if url_truthy url then ret url
  else
    url <- get_package_download_url_fallback package_name ;;
    if url_truthy url then ret url else ret None.

(** *** The fetch worker *)

(** [open(output_dir / filename, 'wb')]: creates or truncates the file;
    the names that denote a directory cannot be opened for writing. *)
Definition open_wb (filename : string) : M downloader unit :=
  if bool_decide (filename ∈ [""; "."; ".."])
  then raise (OtherException "IsADirectoryError")
  else modify (set_files (λ dir, <[filename := []]> dir)).

(** [f.write(chunk)] *)
Definition f_write (filename : string) (chunk : list Byte.byte) : M downloader unit :=
  modify (set_files (λ dir, alter (λ written, app written chunk) filename dir)).

(** [filepath.unlink(missing_ok=True)] *)
Definition unlink (filename : string) : M downloader unit :=
  modify (set_files (λ dir, delete filename dir)).

(** [filepath.stat().st_size] *)
Definition st_size (filename : string) : M downloader Z :=
  λ σ, match files σ !! filename with
       | Some written => (inr (Z.of_nat (length written)), σ)
       | None => (inl (OtherException "FileNotFoundError"), σ)
       end.

(** [int(response.headers.get('content-length', 0))] *)
Definition total_size_of (r : response) : exn + Z :=
  match content_length r with
  | NoLength => inr 0
  | BadLength msg => inl (OtherException msg)
  | Length n => inr n
  end.

(** The loop over [response.iter_content]: empty chunks are passed over,
    the others written and counted. *)
Fixpoint write_chunks (filename : string) (cs : list (list Byte.byte)) (downloaded_size : Z)
    : M downloader Z :=
  match cs with
  | [] => ret downloaded_size
  | chunk :: cs' =>
      match chunk with
      | [] => write_chunks filename cs' downloaded_size
      | _ =>
          f_write filename chunk ;;
          write_chunks filename cs' (downloaded_size + Z.of_nat (length chunk))
      end
  end.

(** The [with open(...)] block: the chunks, then the end of the stream. *)
Definition write_stream (filename : string) (r : response) : M downloader Z :=
  open_wb filename ;;
  downloaded_size <- write_chunks filename (chunks r) 0 ;;
  match stream_error r with
  | Some e => raise e
  | None => ret downloaded_size
  end.

(** "Handle relative URLs" *)
Definition absolute_url (download_url : string) : string :=
  if PyStr.startswith download_url "/" then "https://pypi.org" +:+ download_url
  else if negb (PyStr.startswith download_url "http://" || PyStr.startswith download_url "https://")
  then "https://files.pythonhosted.org" +:+ download_url
  else download_url.

Definition result_failed (package_name reason : string) : FetchResult :=
  {| r_name := package_name; r_status := failed; r_reason := Some reason;
     r_filename := None; r_size := None; r_url := None |}.

Definition result_skipped (package_name : string) : FetchResult :=
  {| r_name := package_name; r_status := skipped; r_reason := Some "already_downloaded";
     r_filename := None; r_size := None; r_url := None |}.

Definition download_package (package_name : string) : M downloader FetchResult :=
  downloaded <- gets downloaded_packages ;;
  if bool_decide (PyStr.lower package_name ∈ downloaded)
  then ret (result_skipped package_name)
  else
    try_except
      (download_url <- get_package_download_url package_name ;;
       match download_url with
       | None => ret (result_failed package_name "no_download_url")
       | Some download_url =>
           if negb (PyStr.truthy download_url)
           then ret (result_failed package_name "no_download_url")
           else
             let download_url := absolute_url download_url in
             let filename := PyStr.basename download_url in
             response <- requests_get download_url ;;
             lift (raise_for_status response) ;;
             total_size <- lift (total_size_of response) ;;
             downloaded_size <- write_stream filename response ;;
             if (total_size >? 0) && negb (downloaded_size =? total_size)
             then
               unlink filename ;;
               ret (result_failed package_name "incomplete_download")
             else
               modify (set_downloaded (λ s, {[ PyStr.lower package_name ]} ∪ s)) ;;
               file_size <- st_size filename ;;
               ret {| r_name := package_name; r_status := success; r_reason := None;
                      r_filename := Some filename; r_size := Some file_size;
                      r_url := Some download_url |}
       end)
      (λ e, match e with
            | Timeout => ret (result_failed package_name "timeout")
            | RequestException => ret (result_failed package_name "network_error")
            | OtherException msg => ret (result_failed package_name msg)
            end).

End Downloader.

(** *** The pool coordinator *)

(** The result appended when [future.result] raises. *)
Definition processing_error (package_name : string) : FetchResult :=
  result_failed package_name "processing_error".

(** A future of the executor once its call has ended: the package it
    was submitted for ([future_to_package[future]]), what the call
    returned or raised, and the time, in seconds from the start of the
    pass, at which it ended.  The calls run concurrently on the state
    they share; what each of them ends with and when is given by the
    run, not computed here. *)
Record future : Type := Future {
  future_package : string;
  future_outcome : exn + FetchResult;
  finished_at : Z
}.

(** [future.result(timeout)] called at time [now]: the outcome of a call
    that has ended by [now + timeout], else [TimeoutError]. *)
Definition future_result (now timeout : Z) (f : future) : exn + FetchResult :=
  if finished_at f <=? now + timeout then future_outcome f
  else inl (OtherException "TimeoutError").

Section Pool.

(** [execution i pkg] and [finish i] say what the [i]-th call submitted,
    [self.download_package(pkg)], ended with in the concurrent run and
    when; [sched i] picks the future that [as_completed] yields at its
    [i]-th step among those not yet yielded.  [as_completed] yields a
    future once its call has ended, so the clock stands at no less than
    the end of the call when the body of the loop runs. *)
Variable execution : nat → string → exn + FetchResult.
Variable finish : nat → Z.
Variable sched : nat → nat.

(** The dictionary [future_to_package]: one future for each element of
    the list, in the order of submission. *)
Definition submit_all (package_list : list string) : list future :=
  imap (λ i pkg, Future pkg (execution i pkg) (finish i)) package_list.

(** The loop over [as_completed(future_to_package)]; [pending] holds the
    futures not yet yielded, [i] counts from 0 and [now] is the clock. *)
Fixpoint completed_loop (fuel i : nat) (now : Z) (pending : list future)
    (results : list FetchResult) : list FetchResult :=
  match fuel with
  | O => results
  | S fuel' =>
      let j := (sched i `mod` length pending)%nat in
      match pending !! j with
      | None => results
      | Some future =>
          let package_name := future_package future in
          let now := Z.max now (finished_at future) in
          let results :=
            match future_result now 300 future with
            | inr result => results ++ [result]
            | inl _ => results ++ [processing_error package_name]
            end in
          completed_loop fuel' (S i) now (delete j pending) results
      end
  end.

(** [ThreadPoolExecutor(max_workers=...)] raises [ValueError] for a
    width that is not positive. *)
Definition download_all_packages (max_workers : Z) (package_list : list string)
    : exn + list FetchResult :=
  if max_workers <=? 0
  then inl (OtherException "max_workers must be greater than 0")
  else inr (completed_loop (length package_list) 0 0 (submit_all package_list) []).

End Pool.

(** What the body of the loop appends for a future whose [result] call
    gives the outcome of the call: the result returned, or the record of
    the [except] clause. *)
Definition contribution (f : future) : FetchResult :=
  match future_outcome f with
  | inr result => result
  | inl _ => processing_error (future_package f)
  end.

(** *** The package list and the failed list *)

(** [load_package_list_from_csv].  [csv] is what opening the file and
    iterating [csv.reader] over it gives: the rows, or the exception
    raised on the way, after which the function returns the empty list. *)
Fixpoint csv_packages (rows : list (list string)) : list string :=
  match rows with
  | [] => []
  | row :: rest =>
      match row with
      | [] => csv_packages rest
      | cell :: _ =>
          let package_name := PyStr.strip cell in
          if PyStr.truthy package_name && negb (PyStr.startswith package_name "#")
          then package_name :: csv_packages rest
          else csv_packages rest
      end
  end.

Definition load_package_list_from_csv (csv : exn + list (list string)) : list string :=
  match csv with
  | inr rows => csv_packages rows
  | inl _ => []
  end.

(** [[r['name'] for r in results if r['status'] == 'failed']] of [main],
    the content of [failed_packages.txt]. *)
Definition failed_names (results : list FetchResult) : list string :=
  r_name <$> filter (λ r, r_status r = failed) results.

(** *** Statistics *)

(** A value of the statistics dictionary: an [int] or a [float]. *)
Inductive number (F : Type) : Type :=
  | Int (z : Z)
  | Float (x : F).
Arguments Int {F} z.
Arguments Float {F} x.

Record statistics (F : Type) : Type := Statistics {
  total : Z;
  successful : Z;
  skipped_count : Z;
  failed_count : Z;
  success_rate : number F;
  total_size_mb : number F;
  average_size_mb : number F
}.
Arguments Statistics {F}.

Section Statistics.

(** Python's [float] and the three operations the source applies:
    [int / int], [float * int] and [float / int]. *)
Context {F : Type}.
Variable int_truediv : Z → Z → F.
Variable float_mul_int : F → Z → F.
Variable float_div_int : F → Z → F.

(** [[r for r in results if r['status'] == s]] *)
Definition with_status (s : status) (results : list FetchResult) : list FetchResult :=
  filter (λ r, r_status r = s) results.

(** [sum(r.get('size', 0) for r in rs)] *)
Definition sum_sizes (rs : list FetchResult) : Z :=
  foldr Z.add 0 (map (λ r, default 0 (r_size r)) rs).

Definition len {A} (l : list A) : Z := Z.of_nat (length l).

Definition generate_statistics (results : list FetchResult) : statistics F :=
  let successful := with_status success results in
  let skipped := with_status skipped results in
  let failed := with_status failed results in
  let total_size := sum_sizes successful in
  {| total := len results;
     successful := len successful;
     skipped_count := len skipped;
     failed_count := len failed;
     success_rate :=
       match results with
       | [] => Int 0
       | _ => Float (float_mul_int (int_truediv (len successful) (len results)) 100)
       end;
     total_size_mb := Float (float_div_int (int_truediv total_size 1024) 1024);
     average_size_mb :=
       match successful with
       | [] => Int 0
       | _ => Float (float_div_int
                       (float_div_int (int_truediv total_size (len successful)) 1024) 1024)
       end |}.

End Statistics.

End Fetch.

(** ** [process_benign.py]: mirror download and retry *)

Module Preprocess.

(** The file system as far as the source uses it: [os.path.exists], and
    writing a file ([open(path, 'wb')], [None] when it raises, then
    [f.write] on the file opened at a path). *)
Class FileSystem (FS : Type) : Type := {
  path_exists : string → FS → bool;
  fs_open_wb : string → FS → option FS;
  fs_write : string → list Byte.byte → FS → FS
}.

(** What the file system is taken to guarantee where a statement needs
    it: a file opened for writing exists, and writing removes no path. *)
Definition keeps_files (FS : Type) `{FileSystem FS} : Prop :=
  (∀ path (d d' : FS), fs_open_wb path d = Some d' → path_exists path d' = true) ∧
  (∀ path file chunk (d : FS),
     path_exists path d = true → path_exists path (fs_write file chunk d) = true).

(** The URLs requested so far (newest first) and the disk. *)
Record world (FS : Type) : Type := World {
  requested : list string;
  disk : FS
}.
Arguments World {FS}.
Arguments requested {FS}.
Arguments disk {FS}.

(** [os.path.join(a, b)] *)
Definition path_join (a b : string) : string :=
  if PyStr.startswith b "/" then b
  else if String.eqb a "" || PyStr.endswith a "/" then a +:+ b
  else a +:+ "/" +:+ b.

(** [find_source_distribution].  [package_info] is [None] for [None];
    an empty dictionary has neither [info] nor [releases] and leads to
    the same [None] through the code below. *)
Definition find_source_distribution (package_info : option metadata) : option release_file :=
  match package_info with
  | None => None
  | Some package_info =>
      let releases := default [] (releases package_info) in
      let latest_version := info_version package_info in
      let latest_version :=
        match latest_version with
        | Some v =>
            if PyStr.truthy v && bool_decide (is_Some (assoc v releases)) then Some v
            else head (filter (λ v, default [] (assoc v releases) ≠ []) releases.*1)
        | None => head (filter (λ v, default [] (assoc v releases) ≠ []) releases.*1)
        end in
      match latest_version with
      | None => None
      | Some latest_version =>
          let release_files := default [] (assoc latest_version releases) in
          let source_files := filter (λ f, packagetype f = Some "sdist") release_files in
          match source_files with
          | [] => None
          | first :: _ =>
              let tar_gz_files :=
                filter (λ f, PyStr.endswith (default "" (filename f)) ".tar.gz" : bool)
                       source_files in
              match tar_gz_files with
              | f :: _ => Some f
              | [] =>
                  let zip_files :=
                    filter (λ f, PyStr.endswith (default "" (filename f)) ".zip" : bool)
                           source_files in
                  match zip_files with
                  | f :: _ => Some f
                  | [] => Some first
                  end
              end
          end
      end
  end.

(** [f.get('filename', '').endswith(suffix)] *)
Definition named_with (suffix : string) (f : release_file) : Prop :=
  PyStr.endswith (default "" (filename f)) suffix.

(** [read_package_list]; [csv] is what opening the file and iterating
    [csv.reader] over it gives: the rows, or the exception raised on the
    way, after which the function returns the empty list. *)
Fixpoint csv_packages (rows : list (list string)) : list string :=
  match rows with
  | [] => []
  | row :: rest =>
      match row with
      | [] => csv_packages rest
      | cell :: _ =>
          if PyStr.truthy (PyStr.strip cell)
          then PyStr.strip cell :: csv_packages rest
          else csv_packages rest
      end
  end.

Definition read_package_list (csv : exn + list (list string)) : list string :=
  match csv with
  | inr rows => csv_packages rows
  | inl _ => []
  end.

(** [os.makedirs(path)], [None] when it raises. *)
Class Directories (FS : Type) : Type := {
  makedirs : string → FS → option FS
}.

Section Mirror.

Context {FS : Type} `{FileSystem FS}.
Variable net : network.

Local Open Scope py_scope.

Definition requests_get (url : string) : M (world FS) response :=
  λ w, (net (length (requested w)) url, World (url :: requested w) (disk w)).

(** [get_package_info_from_mirror] *)
Definition get_package_info_from_mirror (package_name mirror_base : string)
    : M (world FS) (option metadata) :=
  try_except
    (let url := mirror_base +:+ "/" +:+ package_name +:+ "/json" in
     response <- requests_get url ;;
     if status_code response =? 200
     then data <- lift (response_json response) ;; ret (Some data)
     else ret None)
    (λ _, ret None).

(** The loop over [response.iter_content] inside [with open(...)]. *)
Fixpoint write_chunks (filepath : string) (cs : list (list Byte.byte)) : M (world FS) unit :=
  match cs with
  | [] => ret tt
  | chunk :: cs' =>
      match chunk with
      | [] => write_chunks filepath cs'
      | _ =>
          modify (λ w, World (requested w) (fs_write filepath chunk (disk w))) ;;
          write_chunks filepath cs'
      end
  end.

Definition open_wb (filepath : string) : M (world FS) unit :=
  λ w, match fs_open_wb filepath (disk w) with
       | Some d => (inr tt, World (requested w) d)
       | None => (inl (OtherException "OSError"), w)
       end.

(** [download_package_file]; a missing [filename] is [None], which the
    f-string prints as [None] and [os.path.join] refuses. *)
Definition download_package_file (file_info : option release_file)
    (download_dir mirror_base : string) : M (world FS) bool :=
  match file_info with
  | None => ret false
  | Some file_info =>
      let filename := filename file_info in
      let url := url file_info in
      let url :=
        match url with
        | Some u =>
            if PyStr.truthy u && PyStr.contains "pypi.org" u
            then Some (mirror_base +:+ "/" +:+ default "None" filename)
            else Some u
        | None => None
        end in
      match url with
      | None => ret false
      | Some url =>
          if negb (PyStr.truthy url) then ret false
          else
            try_except
              (filename <-
                 lift (match filename with
                       | Some f => inr f
                       | None => inl (OtherException "TypeError")
                       end) ;;
               let filepath := path_join download_dir filename in
               present <- gets (λ w, path_exists filepath (disk w)) ;;
               if present : bool then ret true
               else
                 response <- requests_get url ;;
                 if status_code response =? 200
                 then
                   open_wb filepath ;;
                   write_chunks filepath (chunks response) ;;
                   match stream_error response with
                   | Some e => raise e
                   | None => ret true
                   end
                 else ret false)
              (λ _, ret false)
      end
  end.

(** The body of the inner loop of [retry_failed_downloads]: [true] when
    the package goes to [retry_successful], [false] when it goes to
    [still_failed]. *)
Definition retry_package (package download_dir : string) : M (world FS) bool :=
  try_except
    (package_info <-
       get_package_info_from_mirror package "https://pypi.tuna.tsinghua.edu.cn/pypi" ;;
     match package_info with
     | None => ret false
     | Some _ =>
         match find_source_distribution package_info with
         | None => ret false
         | Some file_info =>
             download_package_file (Some file_info) download_dir
               "https://pypi.tuna.tsinghua.edu.cn/simple"
         end
     end)
    (λ _, ret false).

(** One round: the inner [for package in all_retry_failed]. *)
Fixpoint retry_pass (download_dir : string) (packages retry_successful still_failed : list string)
    : M (world FS) (list string * list string) :=
  match packages with
  | [] => ret (retry_successful, still_failed)
  | package :: rest =>
      ok <- retry_package package download_dir ;;
      if ok : bool
      then retry_pass download_dir rest (retry_successful ++ [package])%list still_failed
      else retry_pass download_dir rest retry_successful (still_failed ++ [package])%list
  end.

(** What one round did; recorded next to the lists of the source so that
    statements can speak of round [k]. *)
Record round : Type := Round {
  submitted : list string;
  succeeded : list string;
  still_failing : list string
}.

(** Each round submits what the round before left failing, the first
    one the list [first]. *)
Fixpoint chained (first : list string) (history : list round) : Prop :=
  match history with
  | [] => True
  | r :: history' => submitted r = first ∧ chained (still_failing r) history'
  end.

(** A round sorts the names submitted into its two lists. *)
Definition sorted_out (r : round) : Prop :=
  succeeded r ++ still_failing r ≡ₚ submitted r.

(** The names still failing after the last round of a history that
    started from [first]. *)
Definition last_failing (first : list string) (history : list round) : list string :=
  match last history with
  | Some r => still_failing r
  | None => first
  end.

(** [for retry in range(max_retries)] with its [break]. *)
Fixpoint retry_rounds (download_dir : string) (max_retries : Z) (rounds : list nat)
    (all_retry_successful all_retry_failed : list string) (history : list round)
    : M (world FS) (list string * list string * list round) :=
  match rounds with
  | [] => ret (all_retry_successful, all_retry_failed, history)
  | retry :: rounds' =>
      pass <- retry_pass download_dir all_retry_failed [] [] ;;
      let retry_successful := pass.1 in
      let still_failed := pass.2 in
      let history := (history ++ [Round all_retry_failed retry_successful still_failed])%list in
      let all_retry_successful := (all_retry_successful ++ retry_successful)%list in
      let all_retry_failed := still_failed in
      if bool_decide (all_retry_failed = []) || (Z.of_nat retry =? max_retries - 1)
      then ret (all_retry_successful, all_retry_failed, history)
      else retry_rounds download_dir max_retries rounds'
             all_retry_successful all_retry_failed history
  end.

(** [retry_failed_downloads] with the history of its rounds. *)
Definition retry_failed_downloads_traced (failed_packages : list string) (download_dir : string)
    (max_retries : Z) : M (world FS) (list string * list string * list round) :=
  match failed_packages with
  | [] => ret ([], [], [])
  | _ =>
      retry_rounds download_dir max_retries (seq 0 (Z.to_nat max_retries))
        [] failed_packages []
  end.

Definition retry_failed_downloads (failed_packages : list string) (download_dir : string)
    (max_retries : Z) : M (world FS) (list string * list string) :=
  r <- retry_failed_downloads_traced failed_packages download_dir max_retries ;;
  ret r.1.

(** *** The first pass and [main] *)

Context `{Directories FS}.

(** The body of the loop of [download_packages_direct]: [true] when the
    package goes to [successful_downloads], [false] when it goes to
    [failed_downloads]. *)
Definition direct_package (package download_dir mirror_base : string) : M (world FS) bool :=
  try_except
    (package_info <- get_package_info_from_mirror package mirror_base ;;
     match package_info with
     | None => ret false
     | Some _ =>
         match find_source_distribution package_info with
         | None => ret false
         | Some file_info =>
             download_package_file (Some file_info) download_dir
               "https://pypi.tuna.tsinghua.edu.cn/simple"
         end
     end)
    (λ _, ret false).

(** The loop [for i, package in enumerate(package_list, 1)]. *)
Fixpoint direct_pass (download_dir mirror_base : string)
    (packages successful_downloads failed_downloads : list string)
    : M (world FS) (list string * list string) :=
  match packages with
  | [] => ret (successful_downloads, failed_downloads)
  | package :: rest =>
      ok <- direct_package package download_dir mirror_base ;;
      if ok : bool
      then direct_pass download_dir mirror_base rest
             (successful_downloads ++ [package])%list failed_downloads
      else direct_pass download_dir mirror_base rest
             successful_downloads (failed_downloads ++ [package])%list
  end.

(** [download_packages_direct]: the directory is created when missing,
    outside any handler. *)
Definition download_packages_direct (package_list : list string)
    (download_dir mirror_base : string) : M (world FS) (list string * list string) :=
  present <- gets (λ w, path_exists download_dir (disk w)) ;;
  (if present : bool then ret tt
   else λ w, match makedirs download_dir (disk w) with
             | Some d => (inr tt, World (requested w) d)
             | None => (inl (OtherException "OSError"), w)
             end) ;;
  direct_pass download_dir mirror_base package_list [] [].

(** The download part of [main] for the package list read: nothing when
    the list is empty, else the first pass, then the retry of what
    failed, with the two lists as [main] goes on to report them. *)
Definition main_download (packages : list string) (download_dir mirror_base : string)
    : M (world FS) (option (list string * list string)) :=
  match packages with
  | [] => ret None
  | _ =>
      first <- download_packages_direct packages download_dir mirror_base ;;
      let successful := first.1 in
      let failed := first.2 in
      match failed with
      | [] => ret (Some (successful, failed))
      | _ =>
          retried <- retry_failed_downloads failed download_dir 2 ;;
          ret (Some ((successful ++ retried.1)%list, retried.2))
      end
  end.

End Mirror.

End Preprocess.

(** ** A registry for examples

    The scenario of the specification ([alpha] is complete, [beta] is
    unknown to both endpoints, [gamma] stops at 50 of 200 declared
    bytes) and a few more packages. *)

Module Scenario.

Import Fetch.

Definition payload (b : Byte.byte) (n : nat) : list Byte.byte := repeat b n.

Definition host : string := "https://files.pythonhosted.org/packages/".

Definition sdist (file : string) : release_file :=
  ReleaseFile (Some "sdist") (Some file) (Some (host +:+ file)).

Definition wheel (file : string) : release_file :=
  ReleaseFile (Some "bdist_wheel") (Some file) (Some (host +:+ file)).

Definition document (files : list release_file) : response :=
  Response 200 (Some (Metadata (Some "1.0") (Some [("0.9", []); ("1.0", files)])))
    [] NoLength [] None.

Definition listing (ls : list (string * string)) : response :=
  Response 200 None ls NoLength [] None.

Definition body (declared : length_header) (cs : list (list Byte.byte)) : response :=
  Response 200 None [] declared cs None.

Definition not_found : response := Response 404 None [] NoLength [] None.

Definition table : list (string * response) :=
  [ (json_url "alpha", document [wheel "alpha-1.0-py3-none-any.whl"; sdist "alpha-1.0.tar.gz"]);
    (host +:+ "alpha-1.0.tar.gz", body (Length 200) [payload Byte.x61 120; []; payload Byte.x61 80]);
    (json_url "gamma", document [sdist "gamma-1.0.tar.gz"]);
    (host +:+ "gamma-1.0.tar.gz", body (Length 200) [payload Byte.x67 50]);
    (json_url "delta", document [sdist "delta-1.0.tar.gz"]);
    (host +:+ "delta-1.0.tar.gz", body NoLength [payload Byte.x64 50]);
    (json_url "left", document [ReleaseFile (Some "sdist") (Some "common-1.0.zip")
                                  (Some "https://files.pythonhosted.org/l/common-1.0.zip")]);
    ("https://files.pythonhosted.org/l/common-1.0.zip", body (Length 3) [payload Byte.x6c 3]);
    (json_url "right", document [ReleaseFile (Some "sdist") (Some "common-1.0.zip")
                                   (Some "https://files.pythonhosted.org/r/common-1.0.zip")]);
    ("https://files.pythonhosted.org/r/common-1.0.zip", body (Length 5) [payload Byte.x72 5]);
    (json_url "scikit-learn", document [sdist "scikit-learn-1.0.zip"]);
    (host +:+ "scikit-learn-1.0.zip", body (Length 4) [payload Byte.x73 4]);
    (json_url "six", document [wheel "six-1.16.0-py2.py3-none-any.whl"]);
    (host +:+ "six-1.16.0-py2.py3-none-any.whl", body (Length 4) [payload Byte.x36 4]);
    (json_url "requests", document [sdist "requests-2.31.0.tar.gz"]);
    (host +:+ "requests-2.31.0.tar.gz", body (Length 4) [payload Byte.x72 4]);
    (json_url "blank", document [ReleaseFile (Some "sdist") (Some "blank-1.0.tar.gz") (Some "")]);
    (simple_url "blank", listing [("/packages/blank-1.0.tar.gz", "tar.gz")]);
    ("https://pypi.org/packages/blank-1.0.tar.gz", body (Length 2) [payload Byte.x62 2]) ].

Definition registry : network :=
  λ _ url, inr (default not_found (assoc url table)).

(** Release files of both types, interleaved. *)
Definition mixed_files : list release_file :=
  [ wheel "pkg-1.0-py3-none-any.whl"; sdist "pkg-1.0.tar.gz";
    wheel "pkg-1.0-cp311-linux.whl"; sdist "pkg-1.0.zip" ].

(** A document whose latest release lists both types. *)
Definition mixed_document : metadata :=
  Metadata (Some "1.0") (Some [("0.9", []); ("1.0", mixed_files)]).

(** A release file served by the mirror itself, and a mirror whose
    answer to the first request breaks off after three bytes. *)
Definition mirror_file : release_file :=
  ReleaseFile (Some "sdist") (Some "alpha-1.0.tar.gz")
    (Some "https://mirror.example/alpha-1.0.tar.gz").

(** The same file as listed with a URL of the official index. *)
Definition pypi_file : release_file :=
  ReleaseFile (Some "sdist") (Some "alpha-1.0.tar.gz")
    (Some "https://pypi.org/packages/alpha-1.0.tar.gz").

Definition broken_mirror : network :=
  λ _ _, inr (Response 200 None [] (Length 200) [payload Byte.x61 3] (Some RequestException)).

(** The registry with a download of [alpha] that times out after three
    bytes. *)
Definition interrupted : network :=
  λ n url,
    if String.eqb url (host +:+ "alpha-1.0.tar.gz")
    then inr (Response 200 None [] (Length 200) [payload Byte.x61 3] (Some Timeout))
    else registry n url.

(** The registry with a download of [gamma] whose connection breaks
    after 50 of the 200 declared bytes. *)
Definition cut_off : network :=
  λ n url,
    if String.eqb url (host +:+ "gamma-1.0.tar.gz")
    then inr (Response 200 None [] (Length 200) [payload Byte.x67 50] (Some RequestException))
    else registry n url.

(** A new downloader on an empty output directory. *)
Definition fresh : downloader := init [] ∅.

(** A run of the pool in which no call sees the effects of another:
    each call ends as it does alone on a new downloader. *)
Definition alone (net : network) : nat → string → exn + FetchResult :=
  λ _ pkg, (download_package net pkg fresh).1.

(** The same run with a second call that raises. *)
Definition second_raises (net : network) : nat → string → exn + FetchResult :=
  λ i pkg, if (i =? 1)%nat then inl (OtherException "MemoryError") else alone net i pkg.

(** A flat disk for [process_benign.py]: paths to contents. *)
Global Instance flat_disk : Preprocess.FileSystem (gmap string (list Byte.byte)) := {|
  Preprocess.path_exists path d := bool_decide (is_Some (d !! path));
  Preprocess.fs_open_wb path d := Some (<[path := []]> d);
  Preprocess.fs_write path chunk d := alter (λ written, app written chunk) path d
|}.

Global Instance flat_disk_dirs : Preprocess.Directories (gmap string (list Byte.byte)) := {|
  Preprocess.makedirs path d := Some d
|}.

Definition mirror_table : list (string * response) :=
  [ ("https://pypi.tuna.tsinghua.edu.cn/pypi/alpha/json",
     document [ReleaseFile (Some "sdist") (Some "alpha-1.0.tar.gz")
                 (Some "https://mirror.example/alpha-1.0.tar.gz")]);
    ("https://mirror.example/alpha-1.0.tar.gz", body (Length 3) [payload Byte.x61 3]) ].

(** A mirror that is unavailable for the first two requests. *)
Definition mirror : network :=
  λ n url,
    if (n <? 2)%nat then inr (Response 503 None [] NoLength [] None)
    else inr (default not_found (assoc url mirror_table)).

Definition empty_disk : Preprocess.world (gmap string (list Byte.byte)) :=
  Preprocess.World [] ∅.

(** Binary64 floats for the statistics of the examples; the conversion
    is exact for the counts and sizes used (below 2^53). *)
Definition float_of_int (z : Z) : float := PrimFloat.of_uint63 (Uint63.of_Z z).

Definition py_truediv (a b : Z) : float := PrimFloat.div (float_of_int a) (float_of_int b).

Definition py_mul (x : float) (b : Z) : float := PrimFloat.mul x (float_of_int b).

Definition py_div (x : float) (b : Z) : float := PrimFloat.div x (float_of_int b).

(** The three terminal results of the scenario, in two orders. *)
Definition scenario_results : list FetchResult :=
  [ {| r_name := "alpha"; r_status := success; r_reason := None;
       r_filename := Some "alpha-1.0.tar.gz"; r_size := Some 200;
       r_url := Some (host +:+ "alpha-1.0.tar.gz") |};
    result_failed "beta" "no_download_url";
    result_failed "gamma" "incomplete_download" ].

End Scenario.

(** * Properties *)

Import Fetch.
Import Scenario.

(** Unfolding of the monad on a run. *)
Ltac run := unfold try_except, bind, requests_get, lift, ret, raise, gets, modify; simpl.

(** A decidable proposition on closed terms, by evaluation. *)
Ltac compute_decide := apply (bool_decide_unpack _); vm_compute; exact I.

(** ** Python strings on examples *)

Example lower_ex : PyStr.lower "Django-REST" = "django-rest".
Proof. reflexivity. Qed.
Example replace_ex : PyStr.replace "a.tar.gz.b.tar.gz" ".tar.gz" "" = "a.b".
Proof. reflexivity. Qed.
Example basename_ex : PyStr.basename "https://h/p/q/requests-2.31.0.tar.gz" = "requests-2.31.0.tar.gz".
Proof. reflexivity. Qed.
Example basename_dir : PyStr.basename "https://h/p/" = "".
Proof. reflexivity. Qed.
Example suffix_targz : PyStr.path_suffix "requests-2.31.0.tar.gz" = ".gz".
Proof. reflexivity. Qed.
Example suffix_whl : PyStr.path_suffix "six-1.16.0-py2.py3-none-any.whl" = ".whl".
Proof. reflexivity. Qed.
Example suffix_hidden : PyStr.path_suffix ".zip" = "".
Proof. reflexivity. Qed.
Example suffix_trailing : PyStr.path_suffix "a." = "".
Proof. reflexivity. Qed.

(** ** Artifact selection *)

Section Selection.

Lemma files_of_type_filter t files :
  Forall complete files → files_of_type t files = inr (filter (has_type t) files).
Proof.
  induction 1 as [|f files [[p Hp] _] _ IH]; simpl; [done|].
  rewrite Hp, IH. f_equal.
  destruct (String.eqb_spec p t) as [->|Hne].
  - by rewrite filter_cons_True.
  - rewrite filter_cons_False; [done|]. unfold has_type. congruence.
Qed.

Lemma filter_first {A} (P : A → Prop) `{!∀ x, Decision (P x)} before x after :
  Forall (λ y, ¬ P y) before → P x →
  filter P (before ++ x :: after) = x :: filter P after.
Proof.
  intros Hb Hx. rewrite filter_app, filter_cons_True by done.
  induction Hb as [|y before Hy _ IH]; [done|].
  by rewrite filter_cons_False.
Qed.

Lemma filter_none {A} (P : A → Prop) `{!∀ x, Decision (P x)} l :
  Forall (λ y, ¬ P y) l → filter P l = [].
Proof.
  induction 1 as [|y l Hy _ IH]; [done|]. by rewrite filter_cons_False.
Qed.

Lemma file_url_complete f : complete f → file_url f = inr (url f).
Proof. intros [_ [u Hu]]. unfold file_url. by rewrite Hu. Qed.

Lemma find_filter {A} (P : A → Prop) `{!∀ x, Decision (P x)} l :
  List.find (λ x, bool_decide (P x)) l = head (filter P l).
Proof.
  induction l as [|x l IH]; [done|]. simpl.
  rewrite filter_cons. destruct (decide (P x)).
  - by rewrite bool_decide_eq_true_2.
  - by rewrite bool_decide_eq_false_2.
Qed.

Lemma select_artifact_choose files :
  Forall complete files → select_artifact files = inr (choose files).
Proof.
  intros Hc. unfold select_artifact, choose.
  rewrite !files_of_type_filter, !find_filter by done.
  assert (Hsub : ∀ t f, head (filter (has_type t) files) = Some f → complete f).
  { intros t f Hf. apply head_Some_elem_of, list_elem_of_filter in Hf as [_ Hf].
    by eapply Forall_forall in Hc. }
  destruct (filter (has_type "sdist") files) as [|f ?] eqn:Hs; simpl.
  - destruct (filter (has_type "bdist_wheel") files) as [|f ?] eqn:Hw; simpl; [done|].
    apply file_url_complete, (Hsub "bdist_wheel"). by rewrite Hw.
  - apply file_url_complete, (Hsub "sdist"). by rewrite Hs.
Qed.

(** C4. For a list of release files (each with its [packagetype] and
    [url]): (1) when the list holds a source distribution and a wheel,
    in any interleaving, the URL selected is that of a source
    distribution of the list; (2) the first-listed source distribution
    wins; (3) without a source distribution the first-listed wheel wins;
    (4) with neither type the selection yields none. *)
Theorem select_artifact_precedence (files : list release_file) :
  Forall complete files →
  ((∃ s w, s ∈ files ∧ w ∈ files ∧ has_type "sdist" s ∧ has_type "bdist_wheel" w) →
   ∃ f, f ∈ files ∧ has_type "sdist" f ∧ select_artifact files = inr (url f)) ∧
  (∀ before f after,
     files = before ++ f :: after → has_type "sdist" f →
     Forall (λ g, ¬ has_type "sdist" g) before →
     select_artifact files = inr (url f)) ∧
  (∀ before f after,
     files = before ++ f :: after → has_type "bdist_wheel" f →
     Forall (λ g, ¬ has_type "sdist" g) files →
     Forall (λ g, ¬ has_type "bdist_wheel" g) before →
     select_artifact files = inr (url f)) ∧
  (Forall (λ g, ¬ has_type "sdist" g ∧ ¬ has_type "bdist_wheel" g) files →
   select_artifact files = inr None).
Proof.
  intros Hc. rewrite select_artifact_choose by done. unfold choose.
  rewrite !find_filter.
  split; [|split; [|split]].
  - intros (s & w & Hs & _ & Hts & _).
    destruct (filter (has_type "sdist") files) as [|f l] eqn:Hf.
    + exfalso. by eapply (filter_nil_not_elem_of (has_type "sdist")).
    + assert (Hin : f ∈ filter (has_type "sdist") files) by (rewrite Hf; left).
      apply list_elem_of_filter in Hin as [Ht Hin]. by exists f.
  - intros before f after -> Hf Hb. by rewrite filter_first.
  - intros before f after -> Hf Hns Hb.
    rewrite (filter_none (has_type "sdist")) by done. simpl.
    by rewrite filter_first.
  - intros Hn. rewrite !filter_none; [done| |].
    + eapply Forall_impl; [exact Hn|]. by intros g [_ ?].
    + eapply Forall_impl; [exact Hn|]. by intros g [? _].
Qed.

End Selection.

(** ** Resolution *)

Section Resolution.

Variable net : network.

Lemma get_package_info_from_json_returns name σ :
  ∃ v, get_package_info_from_json net name σ = (inr v, sent (json_url name) σ).
Proof.
  unfold get_package_info_from_json. run.
  destruct (net _ _) as [[]|r]; simpl; eauto.
  destruct (status_code r =? 404); simpl; eauto.
  destruct (raise_for_status r) as [[]|[]]; simpl; eauto.
  destruct (response_json r) as [[]|data]; simpl; eauto.
  destruct (info_version data) as [v|]; simpl; eauto.
  destruct (assoc v _) as [[|f fs]|]; simpl; eauto.
  destruct (select_artifact (f :: fs)) as [[]|u]; simpl; eauto.
Qed.

Lemma get_package_download_url_fallback_returns name σ :
  ∃ v, get_package_download_url_fallback net name σ = (inr v, sent (simple_url name) σ).
Proof.
  unfold get_package_download_url_fallback. run.
  destruct (net _ _) as [e|r]; simpl; eauto.
  destruct (status_code r =? 404); simpl; eauto.
  destruct (raise_for_status r) as [e|[]]; simpl; eauto.
Qed.

(** What the JSON strategy makes of a failed lookup. *)
Lemma get_package_info_from_json_none name σ :
  json_lookup_fails (net (length (requested σ)) (json_url name)) →
  get_package_info_from_json net name σ = (inr None, sent (json_url name) σ).
Proof.
  unfold get_package_info_from_json, json_lookup_fails. run.
  destruct (net _ _) as [[]|r]; simpl; eauto.
  intros Hr. destruct (status_code r =? 404) eqn:H404; simpl; [done|].
  destruct (raise_for_status r) as [[]|[]]; simpl; eauto.
  unfold response_json.
  destruct Hr as [Hr|[Hr|[Hr|[(d & Hd & Hr)|(d & v & fs & e & Hd & Hv & Hfs & He)]]]].
  - lia.
  - done.
  - by rewrite Hr.
  - by rewrite Hd; simpl; rewrite Hr.
  - rewrite Hd; simpl. rewrite Hv; simpl. rewrite Hfs.
    destruct fs as [|f fs]; [done|]. simpl in *. rewrite He. by destruct e.
Qed.

Lemma get_package_download_url_fallback_none name σ :
  listing_lookup_fails (net (length (requested σ)) (simple_url name)) →
  get_package_download_url_fallback net name σ = (inr None, sent (simple_url name) σ).
Proof.
  unfold get_package_download_url_fallback, listing_lookup_fails. run.
  destruct (net _ _) as [e|r]; simpl; eauto.
  intros Hr. destruct (status_code r =? 404) eqn:H404; simpl; [done|].
  destruct (raise_for_status r) as [e|[]]; simpl; eauto.
  destruct Hr as [Hr|Hr]; [lia|done].
Qed.

(** On a well-formed document the JSON strategy returns the selection
    among the files of the latest release. *)
Lemma get_package_info_from_json_selects name σ r d v fs :
  net (length (requested σ)) (json_url name) = inr r →
  status_code r ≠ 404 → raise_for_status r = inr tt →
  json r = Some d → info_version d = Some v →
  assoc v (default [] (releases d)) = Some fs →
  Forall complete fs →
  get_package_info_from_json net name σ = (inr (choose fs), sent (json_url name) σ).
Proof.
  intros Hnet Hs Hst Hd Hv Hfs Hc. unfold get_package_info_from_json. run.
  rewrite Hnet. simpl. replace (status_code r =? 404) with false by lia. simpl.
  rewrite Hst. simpl. unfold response_json. rewrite Hd. simpl. rewrite Hv. simpl.
  rewrite Hfs. destruct fs as [|f fs]; [done|].
  by rewrite select_artifact_choose.
Qed.

Lemma url_differs name : simple_url name ≠ json_url name.
Proof. unfold simple_url, json_url, base_url. simpl. discriminate. Qed.

Lemma new_requests_one u σ : new_requests σ (sent u σ) = [u].
Proof.
  unfold new_requests. simpl.
  replace (S (length (requested σ)) - length (requested σ))%nat with 1%nat by lia.
  done.
Qed.

Lemma new_requests_two u1 u2 σ : new_requests σ (sent u2 (sent u1 σ)) = [u2; u1].
Proof.
  unfold new_requests. simpl.
  replace (S (S (length (requested σ))) - length (requested σ))%nat with 2%nat by lia.
  done.
Qed.

(** The shape of [get_package_download_url] in terms of its strategies. *)
Lemma get_package_download_url_cases name σ v1 :
  get_package_info_from_json net name σ = (inr v1, sent (json_url name) σ) →
  if url_truthy v1
  then get_package_download_url net name σ = (inr v1, sent (json_url name) σ)
  else ∃ v2,
      get_package_download_url_fallback net name (sent (json_url name) σ)
        = (inr v2, sent (simple_url name) (sent (json_url name) σ)) ∧
      get_package_download_url net name σ
        = (inr (if url_truthy v2 then v2 else None),
           sent (simple_url name) (sent (json_url name) σ)).
Proof.
  intros H1. unfold get_package_download_url, bind. rewrite H1.
  destruct (url_truthy v1) eqn:Ht; [done|].
  destruct (get_package_download_url_fallback_returns name (sent (json_url name) σ)) as [v2 H2].
  exists v2. split; [done|]. rewrite H2. by destruct (url_truthy v2).
Qed.

Lemma url_truthy_false v : url_truthy v = false ↔ v = None ∨ v = Some "".
Proof.
  destruct v as [[|c s]|]; simpl; unfold PyStr.truthy; simpl.
  - split; [by right|done].
  - split; [done|]. by intros [|].
  - split; [by left|done].
Qed.

(** A URL that [get_package_download_url] returns is not empty. *)
Lemma get_package_download_url_truthy name σ u σ' :
  get_package_download_url net name σ = (inr (Some u), σ') → PyStr.truthy u = true.
Proof.
  destruct (get_package_info_from_json_returns name σ) as [v1 H1].
  pose proof (get_package_download_url_cases name σ v1 H1) as Hc.
  destruct (url_truthy v1) eqn:Ht.
  - rewrite Hc. intros [= -> _]. done.
  - destruct Hc as (v2 & _ & ->). destruct (url_truthy v2) eqn:Ht2; [|done].
    intros [= -> _]. done.
Qed.

(** C8, as the code has it.  [get_package_download_url] (1) always
    returns, it never raises; (2) the JSON strategy turns a transport
    failure, a 404 or other error status, and a malformed document into
    none; (3) so does the file-listing strategy for a transport failure
    and an error status; (4) the file-listing page is requested exactly
    when the JSON strategy yields none or the empty string. *)
Theorem resolution_never_raises_and_falls_back (name : string) (σ : downloader) :
  (∃ v σ', get_package_download_url net name σ = (inr v, σ')) ∧
  (json_lookup_fails (net (length (requested σ)) (json_url name)) →
   get_package_info_from_json net name σ = (inr None, sent (json_url name) σ)) ∧
  (∀ σ1, listing_lookup_fails (net (length (requested σ1)) (simple_url name)) →
   get_package_download_url_fallback net name σ1 = (inr None, sent (simple_url name) σ1)) ∧
  (∀ v1 σ1 v σ',
     get_package_info_from_json net name σ = (inr v1, σ1) →
     get_package_download_url net name σ = (inr v, σ') →
     simple_url name ∈ new_requests σ σ' ↔ v1 = None ∨ v1 = Some "").
Proof.
  destruct (get_package_info_from_json_returns name σ) as [w1 H1].
  pose proof (get_package_download_url_cases name σ w1 H1) as Hc.
  split; [|split; [|split]].
  - destruct (url_truthy w1); [eauto|]. destruct Hc as (v2 & _ & ->). eauto.
  - apply get_package_info_from_json_none.
  - intros σ1. apply get_package_download_url_fallback_none.
  - intros v1 σ1 v σ'. rewrite H1. intros [= <- <-]. rewrite <- url_truthy_false.
    destruct (url_truthy w1).
    + rewrite Hc. intros [= <- <-]. rewrite new_requests_one.
      split; [|done]. intros ?%list_elem_of_singleton. by destruct (url_differs name).
    + destruct Hc as (v2 & _ & ->). intros [= <- <-]. rewrite new_requests_two.
      split; [done|]. intros _. left.
Qed.

End Resolution.

(** ** The fetch worker *)

Section Worker.

Variable net : network.

Lemma set_files_id σ (f : gmap string (list Byte.byte) → gmap string (list Byte.byte)) :
  f (files σ) = files σ → set_files f σ = σ.
Proof. destruct σ. unfold set_files. simpl. by intros ->. Qed.

Lemma set_files_compose σ (f g : gmap string (list Byte.byte) → gmap string (list Byte.byte)) :
  set_files f (set_files g σ) = set_files (λ dir, f (g dir)) σ.
Proof. done. Qed.

Lemma set_files_ext σ (f g : gmap string (list Byte.byte) → gmap string (list Byte.byte)) :
  f (files σ) = g (files σ) → set_files f σ = set_files g σ.
Proof. unfold set_files. by intros ->. Qed.

(** The chunks written to a file that is open at [filename]. *)
Lemma write_chunks_run filename cs acc σ written :
  files σ !! filename = Some written →
  write_chunks filename cs acc σ =
    (inr (acc + Z.of_nat (length (concat cs))),
     set_files (λ dir, <[filename := written ++ concat cs]> dir) σ).
Proof.
  revert acc σ written.
  induction cs as [|chunk cs IH]; intros acc σ written Hw; simpl.
  - unfold ret. rewrite Z.add_0_r, app_nil_r, set_files_id; [done|].
    by apply insert_id.
  - destruct chunk as [|b chunk]; [by apply IH|].
    unfold f_write. run.
    rewrite (IH _ _ (written ++ b :: chunk)).
    + rewrite set_files_compose. f_equal.
      * f_equal. rewrite length_app. simpl length. lia.
      * apply set_files_ext. rewrite <- app_assoc.
        apply map_eq. intros k. destruct (decide (k = filename)) as [->|Hne].
        -- by rewrite !lookup_insert_eq.
        -- by rewrite !lookup_insert_ne, lookup_alter_ne.
    + simpl. by rewrite lookup_alter_eq, Hw.
Qed.

Lemma write_stream_run filename r σ :
  filename ∉ [""; "."; ".."] →
  write_stream filename r σ =
    (match stream_error r with
     | Some e => inl e
     | None => inr (Z.of_nat (length (concat (chunks r))))
     end,
     set_files (λ dir, <[filename := concat (chunks r)]> dir) σ).
Proof.
  intros Hf. unfold write_stream, open_wb. run.
  rewrite bool_decide_eq_false_2 by done. simpl.
  rewrite (write_chunks_run _ _ _ _ []).
  - rewrite set_files_compose. simpl.
    rewrite (set_files_ext _ _ (λ dir, <[filename := concat (chunks r)]> dir)).
    + by destruct (stream_error r).
    + by rewrite insert_insert_eq.
  - simpl. by rewrite lookup_insert_eq.
Qed.

(** Resolution only issues requests. *)
Lemma get_package_download_url_state name σ v σ' :
  get_package_download_url net name σ = (inr v, σ') →
  files σ' = files σ ∧ downloaded_packages σ' = downloaded_packages σ.
Proof.
  destruct (get_package_info_from_json_returns net name σ) as [v1 H1].
  pose proof (get_package_download_url_cases net name σ v1 H1) as Hc.
  destruct (url_truthy v1).
  - rewrite Hc. by intros [= _ <-].
  - destruct Hc as (v2 & _ & ->). by intros [= _ <-].
Qed.

Lemma download_package_skipped name σ :
  PyStr.lower name ∈ downloaded_packages σ →
  download_package net name σ = (inr (result_skipped name), σ).
Proof.
  intros Hin. unfold download_package. run. by rewrite bool_decide_eq_true_2.
Qed.

Lemma download_package_unresolved name σ σ1 :
  PyStr.lower name ∉ downloaded_packages σ →
  get_package_download_url net name σ = (inr None, σ1) →
  download_package net name σ = (inr (result_failed name "no_download_url"), σ1).
Proof.
  intros Hin Hres. unfold download_package. run.
  rewrite bool_decide_eq_false_2 by done. by rewrite Hres.
Qed.

(** The fetch of a resolved package whose stream ends without an
    exception: the verification decides between the two outcomes. *)
Lemma download_package_fetched name σ u σ1 r L :
  PyStr.lower name ∉ downloaded_packages σ →
  get_package_download_url net name σ = (inr (Some u), σ1) →
  net (length (requested σ1)) (absolute_url u) = inr r →
  raise_for_status r = inr tt →
  total_size_of r = inr L →
  stream_error r = None →
  PyStr.basename (absolute_url u) ∉ [""; "."; ".."] →
  download_package net name σ =
    if (L >? 0) && negb (Z.of_nat (length (concat (chunks r))) =? L)
    then (inr (result_failed name "incomplete_download"),
          set_files (λ dir, delete (PyStr.basename (absolute_url u)) dir)
            (sent (absolute_url u) σ1))
    else (inr {| r_name := name; r_status := success; r_reason := None;
                 r_filename := Some (PyStr.basename (absolute_url u));
                 r_size := Some (Z.of_nat (length (concat (chunks r))));
                 r_url := Some (absolute_url u) |},
          set_downloaded (λ s, {[ PyStr.lower name ]} ∪ s)
            (set_files (λ dir, <[PyStr.basename (absolute_url u) := concat (chunks r)]> dir)
               (sent (absolute_url u) σ1))).
Proof.
  intros Hin Hres Hnet Hst Hlen Hend Hname.
  pose proof (get_package_download_url_truthy net name σ u σ1 Hres) as Ht.
  unfold download_package. run.
  rewrite bool_decide_eq_false_2 by done. rewrite Hres, Ht. simpl.
  rewrite Hnet, Hst. simpl. rewrite Hlen. simpl.
  rewrite write_stream_run by done. rewrite Hend.
  destruct ((L >? 0) && negb (_ =? L)); simpl.
  - unfold unlink. run. f_equal. rewrite set_files_compose.
    apply set_files_ext. by rewrite delete_insert_eq.
  - unfold st_size. simpl. by rewrite lookup_insert_eq.
Qed.

(** When the stream raises instead of ending, the handlers of
    [download_package] answer and the bytes written so far stay on disk. *)
Lemma download_package_stream_raises name σ u σ1 r L e :
  PyStr.lower name ∉ downloaded_packages σ →
  get_package_download_url net name σ = (inr (Some u), σ1) →
  net (length (requested σ1)) (absolute_url u) = inr r →
  raise_for_status r = inr tt →
  total_size_of r = inr L →
  stream_error r = Some e →
  PyStr.basename (absolute_url u) ∉ [""; "."; ".."] →
  download_package net name σ =
    (inr (result_failed name
            match e with
            | Timeout => "timeout"
            | RequestException => "network_error"
            | OtherException msg => msg
            end),
     set_files (λ dir, <[PyStr.basename (absolute_url u) := concat (chunks r)]> dir)
       (sent (absolute_url u) σ1)).
Proof.
  intros Hin Hres Hnet Hst Hlen Hend Hname.
  pose proof (get_package_download_url_truthy net name σ u σ1 Hres) as Ht.
  unfold download_package. run.
  rewrite bool_decide_eq_false_2 by done. rewrite Hres, Ht. simpl.
  rewrite Hnet, Hst. simpl. rewrite Hlen. simpl.
  rewrite write_stream_run by done. rewrite Hend. by destruct e.
Qed.

(** C2, as the code has it.  A package that is not in the index, whose
    URL resolves and whose download response declares a content length
    [L > 0]: when the stream ends, without raising, with a number of
    written bytes other than [L], the result is
    failed with reason incomplete_download, the file written is deleted
    from the output directory (the other files are as before) and the
    package is not added to the downloaded set. *)
Theorem incomplete_download_removes_file (name : string) (σ σ1 : downloader)
    (u : string) (r : response) (L : Z) :
  PyStr.lower name ∉ downloaded_packages σ →
  get_package_download_url net name σ = (inr (Some u), σ1) →
  net (length (requested σ1)) (absolute_url u) = inr r →
  raise_for_status r = inr tt →
  stream_error r = None →
  PyStr.basename (absolute_url u) ∉ [""; "."; ".."] →
  content_length r = Length L →
  0 < L →
  Z.of_nat (length (concat (chunks r))) ≠ L →
  ∃ σ',
    download_package net name σ = (inr (result_failed name "incomplete_download"), σ') ∧
    files σ' !! PyStr.basename (absolute_url u) = None ∧
    (∀ f, f ≠ PyStr.basename (absolute_url u) → files σ' !! f = files σ !! f) ∧
    downloaded_packages σ' = downloaded_packages σ ∧
    PyStr.lower name ∉ downloaded_packages σ'.
Proof.
  intros Hin Hres Hnet Hst Hend Hname Hlen HL Hne.
  destruct (get_package_download_url_state _ _ _ _ Hres) as [Hf Hd].
  eexists. split.
  - rewrite (download_package_fetched name σ u σ1 r L) by
      (try done; unfold total_size_of; by rewrite Hlen).
    replace (L >? 0) with true by lia.
    replace (_ =? L) with false by lia. done.
  - simpl. rewrite Hf, Hd. split; [by rewrite lookup_delete_eq|].
    split; [|done]. intros f Hfne. by rewrite lookup_delete_ne.
Qed.

(** C10. A package that is not in the index, whose URL resolves and whose
    download response declares no content length (no header, or 0):
    whatever the stream delivers before it ends is accepted; the result
    is success, the file holds exactly the bytes delivered and the
    package is in the downloaded set. *)
Theorem undeclared_length_is_not_verified (name : string) (σ σ1 : downloader)
    (u : string) (r : response) :
  PyStr.lower name ∉ downloaded_packages σ →
  get_package_download_url net name σ = (inr (Some u), σ1) →
  net (length (requested σ1)) (absolute_url u) = inr r →
  raise_for_status r = inr tt →
  stream_error r = None →
  PyStr.basename (absolute_url u) ∉ [""; "."; ".."] →
  content_length r = NoLength ∨ content_length r = Length 0 →
  ∃ σ',
    download_package net name σ =
      (inr {| r_name := name; r_status := success; r_reason := None;
              r_filename := Some (PyStr.basename (absolute_url u));
              r_size := Some (Z.of_nat (length (concat (chunks r))));
              r_url := Some (absolute_url u) |}, σ') ∧
    files σ' !! PyStr.basename (absolute_url u) = Some (concat (chunks r)) ∧
    downloaded_packages σ' = {[ PyStr.lower name ]} ∪ downloaded_packages σ.
Proof.
  intros Hin Hres Hnet Hst Hend Hname Hlen.
  destruct (get_package_download_url_state _ _ _ _ Hres) as [Hf Hd].
  eexists. split.
  - rewrite (download_package_fetched name σ u σ1 r 0); try done.
    unfold total_size_of. by destruct Hlen as [-> | ->].
  - simpl. rewrite Hd. split; [by rewrite lookup_insert_eq|done].
Qed.

(** C7, as the code has it.  A package that is not in the index and for
    which both the JSON endpoint and the file-listing endpoint answer
    404: the result is failed with reason no_download_url. *)
Theorem not_found_is_no_download_url (name : string) (σ : downloader) (r1 r2 : response) :
  PyStr.lower name ∉ downloaded_packages σ →
  net (length (requested σ)) (json_url name) = inr r1 →
  status_code r1 = 404 →
  net (S (length (requested σ))) (simple_url name) = inr r2 →
  status_code r2 = 404 →
  download_package net name σ =
    (inr (result_failed name "no_download_url"),
     sent (simple_url name) (sent (json_url name) σ)).
Proof.
  intros Hin H1 Hs1 H2 Hs2.
  apply download_package_unresolved; [done|].
  assert (Hj : get_package_info_from_json net name σ = (inr None, sent (json_url name) σ)).
  { apply get_package_info_from_json_none. rewrite H1. by left. }
  pose proof (get_package_download_url_cases net name σ None Hj) as (v2 & Hv2 & ->).
  rewrite get_package_download_url_fallback_none in Hv2.
  - by injection Hv2 as <-.
  - simpl. rewrite H2. by left.
Qed.

End Worker.


Lemma incomplete_download_removes_file_witness :
  ∃ σ',
    download_package registry "gamma" fresh =
      (inr (result_failed "gamma" "incomplete_download"), σ') ∧
    files σ' !! "gamma-1.0.tar.gz" = None ∧
    (∀ f, f ≠ "gamma-1.0.tar.gz" → files σ' !! f = files fresh !! f) ∧
    downloaded_packages σ' = downloaded_packages fresh ∧
    "gamma" ∉ downloaded_packages σ'.
Proof.
  apply (incomplete_download_removes_file registry "gamma" fresh
           (sent (json_url "gamma") fresh) (host +:+ "gamma-1.0.tar.gz")
           (body (Length 200) [payload Byte.x67 50]) 200).
  - compute_decide.
  - vm_compute. reflexivity.
  - vm_compute. reflexivity.
  - reflexivity.
  - reflexivity.
  - compute_decide.
  - reflexivity.
  - lia.
  - vm_compute. discriminate.
Defined.

(** C2 as stated fails when the stream raises: the response for [gamma]
    declares 200 bytes and the connection breaks after 50; the result is
    failed with reason network_error, and the 50 bytes written stay in
    the output directory. *)
Lemma incomplete_download_counterexample :
  let run := download_package cut_off "gamma" fresh in
  cut_off 1%nat (host +:+ "gamma-1.0.tar.gz")
    = inr (Response 200 None [] (Length 200) [payload Byte.x67 50] (Some RequestException)) ∧
  Z.of_nat (length (payload Byte.x67 50)) ≠ 200 ∧
  run.1 = inr (result_failed "gamma" "network_error") ∧
  run.1 ≠ inr (result_failed "gamma" "incomplete_download") ∧
  files run.2 !! "gamma-1.0.tar.gz" = Some (payload Byte.x67 50) ∧
  "gamma" ∉ downloaded_packages run.2.
Proof.
  repeat split; try (vm_compute; reflexivity); try (vm_compute; discriminate).
Qed.

Lemma undeclared_length_is_not_verified_witness :
  ∃ σ',
    download_package registry "delta" fresh =
      (inr {| r_name := "delta"; r_status := success; r_reason := None;
              r_filename := Some "delta-1.0.tar.gz"; r_size := Some 50;
              r_url := Some (host +:+ "delta-1.0.tar.gz") |}, σ') ∧
    files σ' !! "delta-1.0.tar.gz" = Some (payload Byte.x64 50) ∧
    downloaded_packages σ' = {[ "delta" ]} ∪ downloaded_packages fresh.
Proof.
  apply (undeclared_length_is_not_verified registry "delta" fresh
           (sent (json_url "delta") fresh) (host +:+ "delta-1.0.tar.gz")
           (body NoLength [payload Byte.x64 50])).
  - compute_decide.
  - vm_compute. reflexivity.
  - vm_compute. reflexivity.
  - reflexivity.
  - reflexivity.
  - compute_decide.
  - by left.
Defined.

Lemma not_found_is_no_download_url_witness :
  download_package registry "beta" fresh =
    (inr (result_failed "beta" "no_download_url"),
     sent (simple_url "beta") (sent (json_url "beta") fresh)).
Proof.
  apply (not_found_is_no_download_url registry "beta" fresh not_found not_found).
  - compute_decide.
  - reflexivity.
  - reflexivity.
  - reflexivity.
  - reflexivity.
Defined.

(** C7 as stated fails: with 404 from both endpoints the reason is
    no_download_url, not not_found. *)
Lemma not_found_counterexample :
  registry 0%nat (json_url "beta") = inr not_found ∧
  registry 1%nat (simple_url "beta") = inr not_found ∧
  status_code not_found = 404 ∧
  (download_package registry "beta" fresh).1 = inr (result_failed "beta" "no_download_url") ∧
  (download_package registry "beta" fresh).1 ≠ inr (result_failed "beta" "not_found").
Proof. vm_compute. repeat split; discriminate. Qed.

(** ** Collisions and re-runs *)

Section Directory.

Variable net : network.

(** What a success tells about the run of [download_package]. *)
Lemma download_package_success_inv name σ r σ' :
  download_package net name σ = (inr r, σ') →
  r_status r = success →
  ∃ u σ1 resp,
    (PyStr.lower name ∉ downloaded_packages σ) ∧
    get_package_download_url net name σ = (inr (Some u), σ1) ∧
    net (length (requested σ1)) (absolute_url u) = inr resp ∧
    r_name r = name ∧
    r_filename r = Some (PyStr.basename (absolute_url u)) ∧
    r_size r = Some (Z.of_nat (length (concat (chunks resp)))) ∧
    files σ' = <[PyStr.basename (absolute_url u) := concat (chunks resp)]> (files σ) ∧
    downloaded_packages σ' = {[ PyStr.lower name ]} ∪ downloaded_packages σ.
Proof.
  unfold download_package. run.
  destruct (bool_decide (PyStr.lower name ∈ downloaded_packages σ)) eqn:Hin;
    [by intros [= <- <-]|].
  apply bool_decide_eq_false_1 in Hin.
  destruct (get_package_download_url net name σ) as [[e|[u|]] σ1] eqn:Hres; simpl;
    [destruct e; by intros [= <- <-] | | by intros [= <- <-]].
  destruct (get_package_download_url_state _ _ _ _ _ Hres) as [Hf Hd].
  rewrite (get_package_download_url_truthy _ _ _ _ _ Hres). simpl.
  destruct (net _ _) as [e|resp] eqn:Hnet; simpl; [destruct e; by intros [= <- <-]|].
  destruct (raise_for_status resp) as [e|[]]; simpl; [destruct e; by intros [= <- <-]|].
  destruct (total_size_of resp) as [e|L]; simpl; [destruct e; by intros [= <- <-]|].
  destruct (decide (PyStr.basename (absolute_url u) ∈ [""; "."; ".."])) as [Hbad|Hok].
  { unfold write_stream, open_wb. run. rewrite bool_decide_eq_true_2 by done.
    simpl. by intros [= <- <-]. }
  rewrite write_stream_run by done.
  destruct (stream_error resp) as [e|]; simpl; [destruct e; by intros [= <- <-]|].
  destruct ((L >? 0) && negb (_ =? L)); simpl; [by intros [= <- <-]|].
  unfold st_size. simpl. rewrite lookup_insert_eq. simpl.
  intros [= <- <-] _. exists u, σ1, resp. simpl. rewrite Hf, Hd. done.
Qed.

(** C5, as the code has it.  When two packages are fetched one after the
    other and both succeed under the same file name (the basename of
    their URLs, to which no suffix is added), the second fetch writes
    over the first: the output directory is the one before the two
    fetches with a single file of that name, which holds the bytes of
    the second download. *)
Theorem same_filename_is_overwritten (a b : string) (σ σ1 σ2 : downloader)
    (ra rb : FetchResult) (f : string) :
  download_package net a σ = (inr ra, σ1) →
  r_status ra = success →
  r_filename ra = Some f →
  download_package net b σ1 = (inr rb, σ2) →
  r_status rb = success →
  r_filename rb = Some f →
  ∃ u σr resp,
    get_package_download_url net b σ1 = (inr (Some u), σr) ∧
    net (length (requested σr)) (absolute_url u) = inr resp ∧
    f = PyStr.basename (absolute_url u) ∧
    files σ2 = <[f := concat (chunks resp)]> (files σ) ∧
    dom (files σ2) = {[ f ]} ∪ dom (files σ).
Proof.
  intros Ha Hsa Hfa Hb Hsb Hfb.
  destruct (download_package_success_inv _ _ _ _ Ha Hsa)
    as (ua & σa & respa & _ & _ & _ & _ & Hfa' & _ & Hfilesa & _).
  destruct (download_package_success_inv _ _ _ _ Hb Hsb)
    as (ub & σb & respb & _ & Hresb & Hnetb & _ & Hfb' & _ & Hfilesb & _).
  rewrite Hfa in Hfa'. injection Hfa' as Hfa'.
  rewrite Hfb in Hfb'. injection Hfb' as Hfb'.
  exists ub, σb, respb. split; [done|]. split; [done|]. split; [done|].
  assert (Hfiles : files σ2 = <[f := concat (chunks respb)]> (files σ)).
  { rewrite Hfilesb, Hfilesa, <- Hfa', <- Hfb'. apply insert_insert_eq. }
  split; [done|]. rewrite Hfiles. apply dom_insert_L.
Qed.

End Directory.


Lemma same_filename_is_overwritten_witness :
  ∃ u σr resp,
    get_package_download_url registry "right" (download_package registry "left" fresh).2
      = (inr (Some u), σr) ∧
    registry (length (requested σr)) (absolute_url u) = inr resp ∧
    "common-1.0.zip" = PyStr.basename (absolute_url u) ∧
    files (download_package registry "right" (download_package registry "left" fresh).2).2
      = <["common-1.0.zip" := concat (chunks resp)]> (files fresh) ∧
    dom (files (download_package registry "right" (download_package registry "left" fresh).2).2)
      = {[ "common-1.0.zip" ]} ∪ dom (files fresh).
Proof.
  apply (same_filename_is_overwritten registry "left" "right" fresh
           (download_package registry "left" fresh).2
           (download_package registry "right" (download_package registry "left" fresh).2).2
           {| r_name := "left"; r_status := success; r_reason := None;
              r_filename := Some "common-1.0.zip"; r_size := Some 3;
              r_url := Some "https://files.pythonhosted.org/l/common-1.0.zip" |}
           {| r_name := "right"; r_status := success; r_reason := None;
              r_filename := Some "common-1.0.zip"; r_size := Some 5;
              r_url := Some "https://files.pythonhosted.org/r/common-1.0.zip" |}
           "common-1.0.zip").
  - vm_compute. reflexivity.
  - reflexivity.
  - reflexivity.
  - vm_compute. reflexivity.
  - reflexivity.
  - reflexivity.
Defined.

(** C5 as stated fails: [left] and [right] resolve to URLs with the same
    basename and both fetches succeed, yet the directory then holds one
    file, with the five bytes of [right]; the three bytes of [left] are
    gone. *)
Lemma collision_counterexample :
  let σ1 := (download_package registry "left" fresh).2 in
  let σ2 := (download_package registry "right" σ1).2 in
  (download_package registry "left" fresh).1 =
    inr {| r_name := "left"; r_status := success; r_reason := None;
           r_filename := Some "common-1.0.zip"; r_size := Some 3;
           r_url := Some "https://files.pythonhosted.org/l/common-1.0.zip" |} ∧
  (download_package registry "right" σ1).1 =
    inr {| r_name := "right"; r_status := success; r_reason := None;
           r_filename := Some "common-1.0.zip"; r_size := Some 5;
           r_url := Some "https://files.pythonhosted.org/r/common-1.0.zip" |} ∧
  files σ1 !! "common-1.0.zip" = Some (payload Byte.x6c 3) ∧
  map_to_list (files σ2) = [("common-1.0.zip", payload Byte.x72 5)].
Proof. vm_compute. repeat split. Qed.

(** ** The downloaded-set index across runs *)

Section Index.

Lemma lower_ascii_idem c : PyStr.lower_ascii (PyStr.lower_ascii c) = PyStr.lower_ascii c.
Proof. destruct c as [[] [] [] [] [] [] [] []]; reflexivity. Qed.

Lemma lower_idem s : PyStr.lower (PyStr.lower s) = PyStr.lower s.
Proof. induction s as [|c s IH]; simpl; [done|]. by rewrite lower_ascii_idem, IH. Qed.

Lemma lower_truthy s : s ≠ "" → PyStr.truthy (PyStr.lower s) = true.
Proof. by destruct s. Qed.

Lemma load_item_mono item (downloaded : gset string) : downloaded ⊆ load_item item downloaded.
Proof.
  unfold load_item. case_bool_decide; [|done].
  destruct (extract_package_name item) as [p|]; [|done].
  destruct (PyStr.truthy p); [|done]. apply union_subseteq_r.
Qed.

Lemma foldr_load_item_mono items (downloaded : gset string) :
  downloaded ⊆ foldr load_item downloaded items.
Proof.
  induction items as [|item items IH]; simpl; [done|].
  etrans; [exact IH|apply load_item_mono].
Qed.

(** The key a file contributes to the index. *)
Lemma load_item_key item key (downloaded : gset string) :
  PyStr.path_suffix item ∈ [".whl"; ".tar.gz"; ".zip"] →
  extract_package_name item = Some key →
  PyStr.truthy key = true →
  PyStr.lower key ∈ load_item item downloaded.
Proof.
  intros Hs He Ht. unfold load_item.
  rewrite bool_decide_eq_true_2, He, Ht by done.
  apply elem_of_union_l, elem_of_singleton. done.
Qed.

Lemma foldr_load_item_key items item key (downloaded : gset string) :
  item ∈ items →
  PyStr.path_suffix item ∈ [".whl"; ".tar.gz"; ".zip"] →
  extract_package_name item = Some key →
  PyStr.truthy key = true →
  PyStr.lower key ∈ foldr load_item downloaded items.
Proof.
  intros Hin Hs He Ht.
  induction items as [|x items IH]; simpl; [by apply elem_of_nil in Hin|].
  apply elem_of_cons in Hin as [<-|Hin].
  - by apply load_item_key.
  - by apply load_item_mono, IH.
Qed.

Lemma init_indexes history dir item key :
  item ∈ dom dir →
  PyStr.path_suffix item ∈ [".whl"; ".tar.gz"; ".zip"] →
  extract_package_name item = Some key →
  PyStr.truthy key = true →
  PyStr.lower key ∈ downloaded_packages (init history dir).
Proof.
  intros Hin Hs He Ht. unfold init, load_existing_packages, iterdir. simpl.
  eapply foldr_load_item_key; [|done..]. by apply elem_of_elements.
Qed.

(** [Path.suffix] starts at the last dot of the name. *)
Lemma from_last_dot_shape s t :
  PyStr.from_last_dot s = Some t →
  ∃ t', t = String "."%char t' ∧ PyStr.from_last_dot t' = None.
Proof.
  induction s as [|c s IH]; simpl; [done|].
  destruct (PyStr.from_last_dot s) as [t0|] eqn:Hs.
  - intros [= <-]. by apply IH.
  - destruct (Ascii.eqb_spec c "."%char) as [->|]; [|done].
    intros [= <-]. eauto.
Qed.

(** The test of [load_existing_packages] never holds with [".tar.gz"]:
    a source archive [name-version.tar.gz] has the suffix [".gz"]. *)
Lemma path_suffix_not_tar_gz item : PyStr.path_suffix item ≠ ".tar.gz".
Proof.
  unfold PyStr.path_suffix.
  destruct (PyStr.from_last_dot item) as [t|] eqn:Ht; [|done].
  destruct (from_last_dot_shape _ _ Ht) as (t' & -> & Hnone).
  destruct (_ && _); [|done].
  intros [= ->]. discriminate Hnone.
Qed.

Variable net : network.

(** C6, as the code has it.  A package whose fetch succeeded and whose
    file has the suffix [.whl] or [.zip] and a name from which
    [extract_package_name] recovers the lower-cased package name: a new
    downloader on a directory that still holds the files of that run
    answers skipped with reason already_downloaded for it, whatever the
    network then says, and makes no request. *)
Theorem rerun_skips_indexed_package (name : string) (σ σ1 : downloader)
    (r : FetchResult) (f : string) :
  download_package net name σ = (inr r, σ1) →
  r_status r = success →
  r_filename r = Some f →
  PyStr.path_suffix f ∈ [".whl"; ".zip"] →
  extract_package_name f = Some (PyStr.lower name) →
  name ≠ "" →
  ∀ (net' : network) (history : list string) (dir : gmap string (list Byte.byte)),
    dom (files σ1) ⊆ dom dir →
    download_package net' name (init history dir)
      = (inr (result_skipped name), init history dir).
Proof.
  intros Hrun Hs Hf Hsuf Hkey Hne net' history dir Hdir.
  destruct (download_package_success_inv _ _ _ _ _ Hrun Hs)
    as (u & σr & resp & _ & _ & _ & _ & Hf' & _ & Hfiles & _).
  rewrite Hf in Hf'. injection Hf' as Hf'.
  apply download_package_skipped.
  rewrite <- lower_idem.
  apply (init_indexes history dir f).
  - apply Hdir. rewrite Hfiles, dom_insert_L, <- Hf'.
    apply elem_of_union_l, elem_of_singleton. done.
  - apply elem_of_cons in Hsuf as [->|Hsuf]; [left|].
    apply list_elem_of_singleton in Hsuf as ->. right. right. left.
  - done.
  - by apply lower_truthy.
Qed.

End Index.


Lemma rerun_skips_indexed_package_witness :
  let first := download_package registry "six" fresh in
  download_package registry "six" (init (requested first.2) (files first.2))
    = (inr (result_skipped "six"), init (requested first.2) (files first.2)).
Proof.
  apply (rerun_skips_indexed_package registry "six" fresh
           (download_package registry "six" fresh).2
           {| r_name := "six"; r_status := success; r_reason := None;
              r_filename := Some "six-1.16.0-py2.py3-none-any.whl"; r_size := Some 4;
              r_url := Some (host +:+ "six-1.16.0-py2.py3-none-any.whl") |}
           "six-1.16.0-py2.py3-none-any.whl").
  - vm_compute. reflexivity.
  - reflexivity.
  - reflexivity.
  - compute_decide.
  - reflexivity.
  - discriminate.
  - reflexivity.
Defined.

(** C6 as stated fails: [scikit-learn] is fetched as
    [scikit-learn-1.0.zip]; the index of a second run on that directory
    holds the key [scikit], so the package is fetched again. *)
Lemma rerun_counterexample :
  let first := download_package registry "scikit-learn" fresh in
  let again := init (requested first.2) (files first.2) in
  first.1 =
    inr {| r_name := "scikit-learn"; r_status := success; r_reason := None;
           r_filename := Some "scikit-learn-1.0.zip"; r_size := Some 4;
           r_url := Some (host +:+ "scikit-learn-1.0.zip") |} ∧
  elements (downloaded_packages again) = ["scikit"] ∧
  (download_package registry "scikit-learn" again).1 = first.1 ∧
  (download_package registry "scikit-learn" again).1 ≠ inr (result_skipped "scikit-learn").
Proof. vm_compute. repeat split. discriminate. Qed.

(** The same happens to every source archive [.tar.gz], whose suffix the
    index does not recognise. *)
Lemma rerun_tar_gz_example :
  let first := download_package registry "requests" fresh in
  let again := init (requested first.2) (files first.2) in
  first.1 =
    inr {| r_name := "requests"; r_status := success; r_reason := None;
           r_filename := Some "requests-2.31.0.tar.gz"; r_size := Some 4;
           r_url := Some (host +:+ "requests-2.31.0.tar.gz") |} ∧
  elements (downloaded_packages again) = [] ∧
  (download_package registry "requests" again).1 = first.1.
Proof. vm_compute. repeat split. Qed.

Section WorkerTotal.

Variable net : network.

(** The worker of the source never raises, and its result carries the
    name it was given. *)
Lemma download_package_returns name σ :
  ∃ r σ', download_package net name σ = (inr r, σ') ∧ r_name r = name.
Proof.
  unfold download_package. run.
  destruct (bool_decide (PyStr.lower name ∈ downloaded_packages σ)); [by eauto|].
  destruct (get_package_download_url net name σ) as [[e|[u|]] σ1]; simpl;
    [destruct e; by eauto | | by eauto].
  destruct (negb (PyStr.truthy u)); simpl; [by eauto|].
  destruct (net _ _) as [e|resp]; simpl; [destruct e; by eauto|].
  destruct (raise_for_status resp) as [e|[]]; simpl; [destruct e; by eauto|].
  destruct (total_size_of resp) as [e|L]; simpl; [destruct e; by eauto|].
  destruct (write_stream _ resp _) as [[e|n] σ2]; simpl; [destruct e; by eauto|].
  destruct (_ && _); simpl; [unfold unlink; run; by eauto|].
  unfold st_size. simpl.
  destruct (_ !! _); simpl; by eauto.
Qed.

Lemma download_package_name name σ r σ' :
  download_package net name σ = (inr r, σ') → r_name r = name.
Proof.
  destruct (download_package_returns name σ) as (r0 & σ0 & -> & Hn).
  by intros [= <- _].
Qed.

End WorkerTotal.

(** ** The pool coordinator *)

Section PoolResults.

Variable sched : nat → nat.

(** A future that [as_completed] has yielded has ended, so its [result]
    call gives the outcome at once, whatever the timeout. *)
Lemma future_result_completed now timeout f :
  finished_at f ≤ now → 0 ≤ timeout → future_result now timeout f = future_outcome f.
Proof.
  intros Hnow Ht. unfold future_result.
  by replace (finished_at f <=? now + timeout) with true by lia.
Qed.

(** The index the scheduler picks is one of a pending future. *)
Lemma picked_pending i (pending : list future) :
  pending ≠ [] → is_Some (pending !! (sched i `mod` length pending)%nat).
Proof.
  intros Hp. apply lookup_lt_is_Some.
  apply Nat.mod_upper_bound. by destruct pending.
Qed.

(** Every pending future is yielded once and contributes one result. *)
Lemma completed_loop_results fuel i now (pending : list future) results :
  fuel = length pending →
  ∃ yielded,
    completed_loop sched fuel i now pending results = results ++ map contribution yielded ∧
    yielded ≡ₚ pending.
Proof.
  revert i now pending results.
  induction fuel as [|fuel IH]; intros i now pending results Hlen; simpl.
  - destruct pending; [|done]. exists []. by rewrite app_nil_r.
  - destruct (picked_pending i pending) as [f Hf]; [by destruct pending|].
    rewrite Hf.
    rewrite future_result_completed by lia.
    assert (Hdel : fuel = length (delete (sched i `mod` length pending)%nat pending)).
    { rewrite length_delete by eauto. lia. }
    destruct (IH (S i) (Z.max now (finished_at f)) _
                (match future_outcome f with
                 | inl _ => results ++ [processing_error (future_package f)]
                 | inr result => results ++ [result]
                 end) Hdel) as (yielded & -> & Hperm).
    exists (f :: yielded). split.
    + unfold contribution at 2. simpl.
      destruct (future_outcome f); by rewrite <- app_assoc.
    + rewrite Hperm. symmetry. by apply delete_Permutation.
Qed.

End PoolResults.

(** The futures submitted are those of the package list, in its order. *)
Lemma submit_all_packages execution finish (package_list : list string) :
  map future_package (submit_all execution finish package_list) = package_list.
Proof.
  unfold submit_all.
  assert (∀ (f : nat → string → future) (l : list string),
            (∀ i p, future_package (f i p) = p) → map future_package (imap f l) = l) as H.
  { intros f l. revert f. induction l as [|p l IH]; intros f Hf; [done|].
    rewrite imap_cons. simpl. rewrite Hf, IH; [done|]. intros i q. apply Hf. }
  by apply H.
Qed.

(** A property of every call submitted holds of every future. *)
Lemma submit_all_Forall execution finish (package_list : list string) (P : future → Prop) :
  (∀ i p, package_list !! i = Some p → P (Future p (execution i p) (finish i))) →
  Forall P (submit_all execution finish package_list).
Proof.
  intros H. apply Forall_lookup. intros i f. unfold submit_all.
  rewrite list_lookup_imap.
  destruct (package_list !! i) as [p|] eqn:Hp; [|done].
  intros [= <-]. by apply H.
Qed.

(** C1, as the code has it.  For a pool of positive width, calls that
    report the name they were given when they return, any times at
    which they end and any order of completion:
    [download_all_packages] returns a list with one result per input
    name.  The list is as long as the input; its
    names are, in the order of completion, those of the futures
    submitted, a rearrangement of the input names; the result of a call
    that raised is the failed/processing_error record of its name. *)
Theorem download_all_packages_one_result_each
    (execution : nat → string → exn + FetchResult) (finish : nat → Z) (sched : nat → nat)
    (max_workers : Z) (package_list : list string) :
  0 < max_workers →
  (∀ i p r, package_list !! i = Some p → execution i p = inr r → r_name r = p) →
  ∃ results yielded,
    download_all_packages execution finish sched max_workers package_list = inr results ∧
    length results = length package_list ∧
    yielded ≡ₚ submit_all execution finish package_list ∧
    map r_name results = map future_package yielded ∧
    map r_name results ≡ₚ package_list ∧
    Forall2 (λ f r, ∀ e, future_outcome f = inl e → r = processing_error (future_package f))
      yielded results.
Proof.
  intros Hw Hname. unfold download_all_packages.
  replace (max_workers <=? 0) with false by lia.
  destruct (completed_loop_results sched (length package_list) 0 0
              (submit_all execution finish package_list) [])
    as (yielded & -> & Hperm).
  { unfold submit_all. by rewrite length_imap. }
  assert (Hnames : map r_name (map contribution yielded) = map future_package yielded).
  { assert (Forall (λ f, ∀ r, future_outcome f = inr r → r_name r = future_package f) yielded)
      as Hall.
    { rewrite Hperm. apply submit_all_Forall. simpl. eauto. }
    clear Hperm. induction Hall as [|f fs Hf _ IH]; [done|].
    simpl. rewrite IH. f_equal. unfold contribution.
    destruct (future_outcome f); [done|by apply Hf]. }
  exists (map contribution yielded), yielded. simpl.
  split; [done|]. split; [|split; [done|split; [done|split]]].
  - rewrite length_map, Hperm. unfold submit_all. by rewrite length_imap.
  - rewrite Hnames, (Permutation_map future_package Hperm).
    by rewrite submit_all_packages.
  - clear. induction yielded as [|f fs IH]; simpl; constructor; [|done].
    intros e He. unfold contribution. by rewrite He.
Qed.

Lemma download_all_packages_one_result_each_witness :
  ∃ results yielded,
    download_all_packages (alone registry) (λ i, Z.of_nat i) (λ i, (i + 1)%nat) 3
      ["alpha"; "beta"; "gamma"] = inr results ∧
    length results = 3%nat ∧
    yielded ≡ₚ submit_all (alone registry) (λ i, Z.of_nat i) ["alpha"; "beta"; "gamma"] ∧
    map r_name results = map future_package yielded ∧
    map r_name results ≡ₚ ["alpha"; "beta"; "gamma"] ∧
    Forall2 (λ f r, ∀ e, future_outcome f = inl e → r = processing_error (future_package f))
      yielded results.
Proof.
  apply (download_all_packages_one_result_each (alone registry) (λ i, Z.of_nat i)
           (λ i, (i + 1)%nat) 3 ["alpha"; "beta"; "gamma"]).
  - lia.
  - intros i p r _. unfold alone.
    destruct (download_package registry p fresh) as [o σ'] eqn:Hrun. simpl.
    intros ->. by eapply download_package_name.
Defined.

(** C1 as stated fails: a width that is not positive is refused by the
    executor, so that no list is returned; and a call that ends 400
    seconds after the start of the pass contributes its own result, not
    a failed/processing_error record. *)
Lemma one_result_each_counterexample :
  download_all_packages (alone registry) (λ _, 0) (λ i, i) 0 ["alpha"]
    = inl (OtherException "max_workers must be greater than 0") ∧
  300 < 400 ∧
  download_all_packages (alone registry) (λ _, 400) (λ i, i) 3 ["alpha"]
    = inr [ {| r_name := "alpha"; r_status := success; r_reason := None;
               r_filename := Some "alpha-1.0.tar.gz"; r_size := Some 200;
               r_url := Some (host +:+ "alpha-1.0.tar.gz") |} ].
Proof. split; [reflexivity|]. split; [lia|]. vm_compute. reflexivity. Qed.

Example download_all_packages_scenario :
  download_all_packages (alone registry) (λ i, Z.of_nat i) (λ i, (i + 1)%nat) 3
    ["alpha"; "beta"; "gamma"]
  = inr [ result_failed "beta" "no_download_url";
          {| r_name := "alpha"; r_status := success; r_reason := None;
             r_filename := Some "alpha-1.0.tar.gz"; r_size := Some 200;
             r_url := Some (host +:+ "alpha-1.0.tar.gz") |};
          result_failed "gamma" "incomplete_download" ].
Proof. vm_compute. reflexivity. Qed.

(** A call that raises contributes the record of the [except] clause. *)
Example download_all_packages_raising_call :
  download_all_packages (second_raises registry) (λ i, Z.of_nat i) (λ _, 0%nat) 3
    ["alpha"; "beta"; "gamma"]
  = inr [ {| r_name := "alpha"; r_status := success; r_reason := None;
             r_filename := Some "alpha-1.0.tar.gz"; r_size := Some 200;
             r_url := Some (host +:+ "alpha-1.0.tar.gz") |};
          processing_error "beta";
          result_failed "gamma" "incomplete_download" ].
Proof. vm_compute. reflexivity. Qed.

(** A width that is not positive is refused by the executor. *)
Example download_all_packages_zero_width :
  download_all_packages (alone registry) (λ _, 0) (λ i, i) 0 ["alpha"]
  = inl (OtherException "max_workers must be greater than 0").
Proof. reflexivity. Qed.

(** ** Statistics *)

Section StatisticsOrder.

Context {F : Type}.
Variable int_truediv : Z → Z → F.
Variable float_mul_int : F → Z → F.
Variable float_div_int : F → Z → F.

Lemma len_Permutation {A} (l l' : list A) : l ≡ₚ l' → len l = len l'.
Proof. unfold len. by intros ->. Qed.

Lemma with_status_Permutation s results results' :
  results ≡ₚ results' → with_status s results ≡ₚ with_status s results'.
Proof. unfold with_status. by intros ->. Qed.

Lemma sum_sizes_Permutation rs rs' : rs ≡ₚ rs' → sum_sizes rs = sum_sizes rs'.
Proof.
  unfold sum_sizes.
  induction 1 as [|r rs rs' _ IH|r1 r2 rs|rs1 rs2 rs3 _ IH1 _ IH2]; simpl.
  - done.
  - by rewrite IH.
  - lia.
  - by rewrite IH1.
Qed.

(** The branch on an empty list does not see the order. *)
Lemma if_empty_Permutation {A B} (l l' : list A) (a b : B) :
  l ≡ₚ l' →
  match l with [] => a | _ :: _ => b end = match l' with [] => a | _ :: _ => b end.
Proof.
  intros Hp. destruct l as [|x l].
  - apply Permutation_nil_l in Hp as <-. done.
  - destruct l' as [|x' l']; [|done]. by apply Permutation_nil_r in Hp.
Qed.

(** C9. The statistics of a results list and of any rearrangement of it
    are the same in every field: the four counts, [success_rate],
    [total_size_mb] and [average_size_mb], for any float arithmetic. *)
Theorem generate_statistics_order_independent (results results' : list FetchResult) :
  results ≡ₚ results' →
  generate_statistics int_truediv float_mul_int float_div_int results
  = generate_statistics int_truediv float_mul_int float_div_int results'.
Proof.
  intros Hp. unfold generate_statistics.
  pose proof (with_status_Permutation success _ _ Hp) as Hs.
  rewrite <- (len_Permutation _ _ Hp).
  rewrite <- (len_Permutation _ _ Hs).
  rewrite <- (len_Permutation _ _ (with_status_Permutation skipped _ _ Hp)).
  rewrite <- (len_Permutation _ _ (with_status_Permutation failed _ _ Hp)).
  rewrite <- (sum_sizes_Permutation _ _ Hs).
  f_equal.
  - by apply if_empty_Permutation.
  - by apply if_empty_Permutation.
Qed.

End StatisticsOrder.


Lemma generate_statistics_order_independent_witness :
  generate_statistics py_truediv py_mul py_div scenario_results
  = generate_statistics py_truediv py_mul py_div (reverse scenario_results).
Proof.
  apply (generate_statistics_order_independent py_truediv py_mul py_div
           scenario_results (reverse scenario_results)).
  symmetry. apply reverse_Permutation.
Defined.

(** The manifest of the scenario: one success, two failures, a third of
    the packages fetched. *)
Example generate_statistics_scenario :
  generate_statistics py_truediv py_mul py_div scenario_results
  = {| total := 3; successful := 1; skipped_count := 0; failed_count := 2;
       success_rate := Float 0x1.0aaaaaaaaaaaap+5%float;
       total_size_mb := Float 0x1.9p-13%float;
       average_size_mb := Float 0x1.9p-13%float |}.
Proof. vm_compute. reflexivity. Qed.

(** ** Retry rounds *)

Module RetryRounds.

Import Preprocess.

Section Rounds.

Context {FS : Type} `{FileSystem FS}.
Variable net : network.

(** The attempt on one package never raises. *)
Lemma retry_package_returns package download_dir w :
  ∃ ok w', retry_package net package download_dir w = (inr ok, w').
Proof.
  unfold retry_package, try_except.
  match goal with |- context [match ?body w with _ => _ end] =>
    destruct (body w) as [[e|ok] w'] end; unfold ret; eauto.
Qed.

(** One round sorts every submitted name into exactly one of its lists. *)
Lemma retry_pass_sorts download_dir packages retry_successful still_failed w :
  ∃ rs sf w',
    retry_pass net download_dir packages retry_successful still_failed w
      = (inr (retry_successful ++ rs, still_failed ++ sf), w') ∧
    rs ++ sf ≡ₚ packages.
Proof.
  revert retry_successful still_failed w.
  induction packages as [|package rest IH]; intros retry_successful still_failed w; simpl.
  - exists [], [], w. by rewrite !app_nil_r.
  - unfold bind.
    destruct (retry_package_returns package download_dir w) as (ok & w1 & ->).
    destruct ok.
    + destruct (IH (retry_successful ++ [package]) still_failed w1) as (rs & sf & w' & -> & Hp).
      exists (package :: rs), sf, w'. rewrite <- app_assoc. split; [done|].
      simpl. by rewrite Hp.
    + destruct (IH retry_successful (still_failed ++ [package]) w1) as (rs & sf & w' & -> & Hp).
      exists rs, (package :: sf), w'. rewrite <- app_assoc. split; [done|].
      by rewrite <- Permutation_middle, Hp.
Qed.

Lemma last_failing_cons first r history :
  last_failing first (r :: history) = last_failing (still_failing r) history.
Proof.
  unfold last_failing. rewrite last_cons. by destruct (last history).
Qed.

Lemma chained_snoc first history r :
  chained first history → submitted r = last_failing first history →
  chained first (history ++ [r]).
Proof.
  revert first. induction history as [|r0 history IH]; intros first; simpl.
  - by intros _ ->.
  - intros [-> Hc] Hr. split; [done|]. apply IH; [done|].
    by rewrite Hr, last_failing_cons.
Qed.

Lemma last_failing_snoc first history r :
  last_failing first (history ++ [r]) = still_failing r.
Proof. unfold last_failing. by rewrite last_snoc. Qed.

(** The loop over the rounds keeps the history chained and returns the
    lists the history describes. *)
Lemma retry_rounds_history download_dir max_retries rounds first
    all_retry_successful history w :
  chained first history → Forall sorted_out history →
  all_retry_successful = concat (succeeded <$> history) →
  ∃ history' w',
    retry_rounds net download_dir max_retries rounds all_retry_successful
      (last_failing first history) history w
      = (inr (concat (succeeded <$> history'), last_failing first history', history'), w') ∧
    chained first history' ∧ Forall sorted_out history' ∧
    (length history' ≤ length history + length rounds)%nat.
Proof.
  revert all_retry_successful history w.
  induction rounds as [|retry rounds IH]; intros all_retry_successful history w Hc Hs ->; simpl.
  - exists history, w. unfold ret. split; [done|]. split; [done|]. split; [done|lia].
  - unfold bind.
    destruct (retry_pass_sorts download_dir (last_failing first history) [] [] w)
      as (rs & sf & w1 & -> & Hp). simpl.
    set (r := Round (last_failing first history) rs sf).
    assert (Hc' : chained first (history ++ [r])) by by apply chained_snoc.
    assert (Hs' : Forall sorted_out (history ++ [r])).
    { apply Forall_app. split; [done|]. by repeat constructor. }
    assert (Hcat : concat (succeeded <$> history) ++ rs
                   = concat (succeeded <$> (history ++ [r]))).
    { rewrite fmap_app, concat_app. simpl. by rewrite app_nil_r. }
    assert (Hlast : sf = last_failing first (history ++ [r])) by by rewrite last_failing_snoc.
    destruct (bool_decide (sf = []) || (Z.of_nat retry =? max_retries - 1)).
    + exists (history ++ [r]), w1. unfold ret. rewrite Hcat, <- Hlast.
      split; [done|]. split; [done|]. split; [done|]. rewrite length_app. simpl. lia.
    + rewrite Hlast.
      destruct (IH _ (history ++ [r]) w1 Hc' Hs' Hcat) as (history' & w' & -> & ? & ? & Hlen).
      exists history', w'. split; [done|]. split; [done|]. split; [done|].
      rewrite length_app in Hlen. simpl in *. lia.
Qed.

End Rounds.

(** *** What a chained history says about its rounds *)

Lemma sorted_out_failing r : sorted_out r → still_failing r ⊆ submitted r.
Proof.
  unfold sorted_out. intros Hr x Hx. rewrite <- Hr. apply elem_of_app. by right.
Qed.

Lemma sorted_out_NoDup r :
  sorted_out r → NoDup (submitted r) →
  NoDup (still_failing r) ∧ ∀ x, x ∈ succeeded r → x ∉ still_failing r.
Proof.
  unfold sorted_out. intros Hr Hnd. rewrite <- Hr in Hnd. apply NoDup_app in Hnd as (_ & Hdis & Hnd).
  done.
Qed.

(** Round [k+1] leaves failing only names that round [k] left failing. *)
Lemma chained_narrows first history k r r' :
  chained first history → Forall sorted_out history →
  history !! k = Some r → history !! S k = Some r' →
  still_failing r' ⊆ still_failing r.
Proof.
  revert first k. induction history as [|r0 history IH]; intros first k Hc Hs; [done|].
  destruct Hc as [_ Hc]. apply Forall_cons in Hs as [_ Hs].
  destruct k as [|k]; simpl.
  - intros [= ->]. destruct history as [|r1 history]; [done|]. intros [= ->].
    destruct Hc as [<- _]. apply Forall_cons in Hs as [Hs _].
    by apply sorted_out_failing.
  - by apply IH with (first := still_failing r0).
Qed.

(** Every later round submits only names that were still failing. *)
Lemma chained_submitted first history k r :
  chained first history → Forall sorted_out history →
  history !! k = Some r → submitted r ⊆ first.
Proof.
  revert first k. induction history as [|r0 history IH]; intros first k Hc Hs; [done|].
  destruct Hc as [Hr0 Hc]. apply Forall_cons in Hs as [Hs0 Hs].
  destruct k as [|k]; simpl.
  - by intros [= <-]; rewrite Hr0.
  - intros Hk. etrans; [by eapply IH|]. rewrite <- Hr0. by apply sorted_out_failing.
Qed.

(** A name that succeeded in round [j] is not submitted in a later round. *)
Lemma chained_never_resubmitted first history j k rj rk name :
  NoDup first → chained first history → Forall sorted_out history →
  (j < k)%nat → history !! j = Some rj → history !! k = Some rk →
  name ∈ succeeded rj → name ∉ submitted rk.
Proof.
  revert first j k. induction history as [|r0 history IH]; intros first j k Hnd Hc Hs Hjk; [done|].
  destruct Hc as [Hr0 Hc]. apply Forall_cons in Hs as [Hs0 Hs].
  rewrite <- Hr0 in Hnd. destruct (sorted_out_NoDup r0 Hs0 Hnd) as [Hnd' Hdis].
  destruct k as [|k]; [lia|]. destruct j as [|j]; simpl.
  - intros [= <-] Hk Hin Hsub. apply (Hdis name Hin).
    by eapply chained_submitted.
  - apply IH with (first := still_failing r0); [done..|lia].
Qed.

(** The two lists returned hold every initial name once. *)
Lemma chained_partition first history :
  chained first history → Forall sorted_out history →
  concat (succeeded <$> history) ++ last_failing first history ≡ₚ first.
Proof.
  revert first. induction history as [|r0 history IH]; intros first Hc Hs; [done|].
  destruct Hc as [Hr0 Hc]. apply Forall_cons in Hs as [Hs0 Hs].
  rewrite last_failing_cons. simpl. rewrite <- app_assoc, IH by done.
  by rewrite <- Hr0.
Qed.

(** C3. For an initially-failed list without repetitions and any number
    of rounds, [retry_failed_downloads] returns, and the rounds it ran
    satisfy: the first round submits the initial list and every later
    round exactly the names the round before left failing; the names
    still failing after round [k+1] are among those still failing after
    round [k]; a name that succeeded in a round is submitted in no later
    round; the failures returned are those left by the last round, and
    together with the successes returned they are the initial names. *)
Theorem retry_rounds_narrow {FS : Type} `{FileSystem FS} (net : network)
    (failed_packages : list string) (download_dir : string) (max_retries : Z)
    (w : world FS) :
  NoDup failed_packages →
  ∃ retry_successful retry_failed history w',
    retry_failed_downloads_traced net failed_packages download_dir max_retries w
      = (inr (retry_successful, retry_failed, history), w') ∧
    retry_failed_downloads net failed_packages download_dir max_retries w
      = (inr (retry_successful, retry_failed), w') ∧
    (length history ≤ Z.to_nat max_retries)%nat ∧
    chained failed_packages history ∧
    Forall sorted_out history ∧
    (∀ k r r', history !! k = Some r → history !! S k = Some r' →
               still_failing r' ⊆ still_failing r) ∧
    (∀ j k rj rk name, (j < k)%nat → history !! j = Some rj → history !! k = Some rk →
                       name ∈ succeeded rj → name ∉ submitted rk) ∧
    retry_failed = last_failing failed_packages history ∧
    retry_successful ++ retry_failed ≡ₚ failed_packages.
Proof.
  intros Hnd.
  assert (∃ history w',
    retry_failed_downloads_traced net failed_packages download_dir max_retries w
      = (inr (concat (succeeded <$> history), last_failing failed_packages history, history), w') ∧
    chained failed_packages history ∧ Forall sorted_out history ∧
    (length history ≤ Z.to_nat max_retries)%nat) as (history & w' & Hrun & Hc & Hs & Hlen).
  { unfold retry_failed_downloads_traced. destruct failed_packages as [|p ps] eqn:Hfp.
    - exists [], w. unfold ret. split; [done|]. split; [done|]. split; [done|]. simpl. lia.
    - rewrite <- Hfp.
      destruct (retry_rounds_history net download_dir max_retries
                  (seq 0 (Z.to_nat max_retries)) failed_packages [] [] w)
        as (history & w' & Hrun & Hc & Hs & Hlen); [done..|].
      exists history, w'. split; [exact Hrun|]. split; [done|]. split; [done|].
      rewrite length_seq in Hlen. simpl in Hlen. done. }
  exists (concat (succeeded <$> history)), (last_failing failed_packages history), history, w'.
  split; [done|]. split.
  { unfold retry_failed_downloads, bind. by rewrite Hrun. }
  split; [done|]. split; [done|]. split; [done|]. split.
  { intros k r r'. by apply chained_narrows with (first := failed_packages). }
  split.
  { intros j k rj rk name. by apply chained_never_resubmitted with (first := failed_packages). }
  split; [done|]. by apply chained_partition.
Qed.

End RetryRounds.


Lemma retry_rounds_narrow_witness :
  ∃ retry_successful retry_failed history w',
    Preprocess.retry_failed_downloads_traced mirror ["alpha"; "beta"] "downloads" 2 empty_disk
      = (inr (retry_successful, retry_failed, history), w') ∧
    Preprocess.retry_failed_downloads mirror ["alpha"; "beta"] "downloads" 2 empty_disk
      = (inr (retry_successful, retry_failed), w') ∧
    (length history ≤ Z.to_nat 2)%nat ∧
    Preprocess.chained ["alpha"; "beta"] history ∧
    Forall Preprocess.sorted_out history ∧
    (∀ k r r', history !! k = Some r → history !! S k = Some r' →
               Preprocess.still_failing r' ⊆ Preprocess.still_failing r) ∧
    (∀ j k rj rk name, (j < k)%nat → history !! j = Some rj → history !! k = Some rk →
                       name ∈ Preprocess.succeeded rj → name ∉ Preprocess.submitted rk) ∧
    retry_failed = Preprocess.last_failing ["alpha"; "beta"] history ∧
    retry_successful ++ retry_failed ≡ₚ ["alpha"; "beta"].
Proof.
  apply (RetryRounds.retry_rounds_narrow mirror ["alpha"; "beta"] "downloads" 2 empty_disk).
  compute_decide.
Defined.

(** The mirror answers from the third request on: [alpha] is fetched in
    the second round, [beta] stays failing. *)
Example retry_failed_downloads_scenario :
  (Preprocess.retry_failed_downloads_traced mirror ["alpha"; "beta"] "downloads" 2 empty_disk).1
  = inr (["alpha"], ["beta"],
         [Preprocess.Round ["alpha"; "beta"] [] ["alpha"; "beta"];
          Preprocess.Round ["alpha"; "beta"] ["alpha"] ["beta"]]).
Proof. vm_compute. reflexivity. Qed.

(** With a name listed twice the list is not a set, and a name that
    succeeded can be submitted again: the second [alpha] succeeds in the
    first round while the first one is retried in the second. *)
Example retry_failed_downloads_repeated_name :
  (Preprocess.retry_failed_downloads_traced mirror ["beta"; "alpha"; "alpha"] "downloads" 2
     empty_disk).1
  = inr (["alpha"; "alpha"], ["beta"],
         [Preprocess.Round ["beta"; "alpha"; "alpha"] ["alpha"] ["beta"; "alpha"];
          Preprocess.Round ["beta"; "alpha"] ["alpha"] ["beta"]]).
Proof. vm_compute. reflexivity. Qed.

(** ** Examples for selection and resolution *)

Lemma select_artifact_precedence_witness :
  ((∃ s w, s ∈ mixed_files ∧ w ∈ mixed_files ∧
           has_type "sdist" s ∧ has_type "bdist_wheel" w) →
   ∃ f, f ∈ mixed_files ∧ has_type "sdist" f ∧ select_artifact mixed_files = inr (url f)) ∧
  (∀ before f after,
     mixed_files = before ++ f :: after → has_type "sdist" f →
     Forall (λ g, ¬ has_type "sdist" g) before →
     select_artifact mixed_files = inr (url f)) ∧
  (∀ before f after,
     mixed_files = before ++ f :: after → has_type "bdist_wheel" f →
     Forall (λ g, ¬ has_type "sdist" g) mixed_files →
     Forall (λ g, ¬ has_type "bdist_wheel" g) before →
     select_artifact mixed_files = inr (url f)) ∧
  (Forall (λ g, ¬ has_type "sdist" g ∧ ¬ has_type "bdist_wheel" g) mixed_files →
   select_artifact mixed_files = inr None).
Proof.
  apply (select_artifact_precedence mixed_files).
  compute_decide.
Defined.

Example select_artifact_mixed :
  select_artifact mixed_files = inr (Some (host +:+ "pkg-1.0.tar.gz")).
Proof. reflexivity. Qed.

Example select_artifact_wheels_only :
  select_artifact [wheel "b.whl"; wheel "a.whl"] = inr (Some (host +:+ "b.whl")).
Proof. reflexivity. Qed.

Example select_artifact_other_types :
  select_artifact [ReleaseFile (Some "bdist_egg") (Some "a.egg") (Some (host +:+ "a.egg"))]
  = inr None.
Proof. reflexivity. Qed.

(** The file-listing strategy applies the same precedence by suffix. *)
Lemma select_link_nonempty (links : list (string * string)) :
  links ≠ [] →
  select_link links =
    match (filter (λ link, PyStr.endswith link.1 ".tar.gz" || PyStr.endswith link.1 ".zip")
                  links).*1 with
    | u :: _ => Some u
    | [] =>
        match (filter (λ link, PyStr.endswith link.1 ".whl" : bool) links).*1 with
        | u :: _ => Some u
        | [] => None
        end
    end.
Proof. by destruct links. Qed.

Lemma select_link_precedence (links : list (string * string)) before l after :
  links = before ++ l :: after →
  PyStr.endswith l.1 ".tar.gz" || PyStr.endswith l.1 ".zip" →
  Forall (λ k, ¬ (PyStr.endswith k.1 ".tar.gz" || PyStr.endswith k.1 ".zip")) before →
  select_link links = Some l.1.
Proof.
  intros -> Hl Hb. rewrite select_link_nonempty by (by destruct before).
  by rewrite filter_first.
Qed.

(** C8 as stated fails: for [blank] the JSON strategy yields a URL, the
    empty string, not none, and the file-listing page is requested all
    the same. *)
Lemma fallback_counterexample :
  let resolved := get_package_download_url registry "blank" fresh in
  get_package_info_from_json registry "blank" fresh
    = (inr (Some ""), sent (json_url "blank") fresh) ∧
  Some "" ≠ (None : option string) ∧
  resolved.1 = inr (Some "/packages/blank-1.0.tar.gz") ∧
  simple_url "blank" ∈ new_requests fresh resolved.2.
Proof.
  vm_compute. split; [done|]. split; [done|]. split; [done|]. left.
Qed.

(** * Further properties *)

(** ** The package list *)

Section PackageList.

Lemma rstrip_idem s : PyStr.rstrip (PyStr.rstrip s) = PyStr.rstrip s.
Proof.
  induction s as [|c s IH]; simpl; [done|].
  destruct (PyStr.rstrip s) as [|d r] eqn:Hr.
  - destruct (PyStr.is_space c) eqn:Hc; simpl; [done|]. by rewrite Hc.
  - simpl in *. by rewrite IH.
Qed.

Lemma rstrip_cons c s :
  PyStr.is_space c = false → PyStr.rstrip (String c s) = String c (PyStr.rstrip s).
Proof. intros Hc. simpl. destruct (PyStr.rstrip s); [by rewrite Hc|done]. Qed.

Lemma lstrip_head s :
  PyStr.lstrip s = "" ∨ ∃ c t, PyStr.lstrip s = String c t ∧ PyStr.is_space c = false.
Proof.
  induction s as [|c s IH]; simpl; [by left|].
  destruct (PyStr.is_space c) eqn:Hc; [done|]. right. eauto.
Qed.

Lemma strip_idem s : PyStr.strip (PyStr.strip s) = PyStr.strip s.
Proof.
  unfold PyStr.strip. destruct (lstrip_head s) as [->|(c & t & -> & Hc)]; [done|].
  rewrite rstrip_cons by done. simpl PyStr.lstrip. rewrite Hc.
  by rewrite rstrip_cons, rstrip_idem.
Qed.

Lemma csv_packages_filter rows :
  Fetch.csv_packages rows
  = filter (λ n, PyStr.startswith n "#" = false) (Preprocess.csv_packages rows).
Proof.
  induction rows as [|row rows IH]; simpl; [done|].
  destruct row as [|cell row]; [done|].
  destruct (PyStr.truthy (PyStr.strip cell)); simpl; [|done].
  destruct (PyStr.startswith (PyStr.strip cell) "#") eqn:Hs; simpl.
  - rewrite filter_cons_False; [done|]. by rewrite Hs.
  - rewrite filter_cons_True; [|done]. by rewrite IH.
Qed.

Lemma read_packages_clean rows name :
  name ∈ Preprocess.csv_packages rows →
  name ≠ "" ∧ PyStr.strip name = name ∧ ∃ cell row, cell :: row ∈ rows ∧ name = PyStr.strip cell.
Proof.
  induction rows as [|row rows IH]; simpl; [by intros ?%elem_of_nil|].
  assert (Hrest : name ∈ Preprocess.csv_packages rows →
    name ≠ "" ∧ PyStr.strip name = name ∧
    ∃ cell row', cell :: row' ∈ row :: rows ∧ name = PyStr.strip cell).
  { intros (? & ? & cell & row' & ? & ?)%IH. split; [done|]. split; [done|].
    exists cell, row'. split; [by right|done]. }
  destruct row as [|cell row]; [done|].
  destruct (PyStr.truthy (PyStr.strip cell)) eqn:Ht; [|done].
  intros [->|Hin]%elem_of_cons; [|by apply Hrest].
  split; [by destruct (PyStr.strip cell)|]. split; [apply strip_idem|].
  exists cell, row. split; [left|done].
Qed.

(** X1. The names [load_package_list_from_csv] returns: each is the
    stripped first cell of a row, is not empty, has no white space at
    either end and does not start with [#].  The names
    [read_package_list] of [process_benign.py] returns are the stripped
    first cells that are not empty.  A file that cannot be read gives
    the empty list in each.  The two functions open the file in
    different newline modes; on rows that [csv.reader] gives to both
    alike, the first list is the second without the names that start
    with [#], in the same order. *)
Theorem load_package_list_from_csv_clean (csv csv' : exn + list (list string)) :
  (∀ name, name ∈ Fetch.load_package_list_from_csv csv →
     name ≠ "" ∧ PyStr.strip name = name ∧ PyStr.startswith name "#" = false ∧
     ∃ rows cell row, csv = inr rows ∧ cell :: row ∈ rows ∧ name = PyStr.strip cell) ∧
  (∀ name, name ∈ Preprocess.read_package_list csv' →
     name ≠ "" ∧ PyStr.strip name = name ∧
     ∃ rows cell row, csv' = inr rows ∧ cell :: row ∈ rows ∧ name = PyStr.strip cell) ∧
  (∀ e, csv = inl e → Fetch.load_package_list_from_csv csv = []) ∧
  (∀ e, csv' = inl e → Preprocess.read_package_list csv' = []) ∧
  (∀ rows, csv = inr rows → csv' = inr rows →
     Fetch.load_package_list_from_csv csv
       = filter (λ n, PyStr.startswith n "#" = false) (Preprocess.read_package_list csv')).
Proof.
  split; [|split; [|split; [|split]]].
  - destruct csv as [e|rows]; simpl; [by intros name ?%elem_of_nil|].
    intros name. rewrite csv_packages_filter.
    intros [Hs (Hne & Hstrip & cell & row & Hin & ->)%read_packages_clean]%list_elem_of_filter.
    split; [done|]. split; [done|]. split; [done|]. by exists rows, cell, row.
  - destruct csv' as [e|rows]; simpl; [by intros name ?%elem_of_nil|].
    intros name (Hne & Hstrip & cell & row & Hin & ->)%read_packages_clean.
    split; [done|]. split; [done|]. by exists rows, cell, row.
  - by intros e ->.
  - by intros e ->.
  - intros rows -> ->. simpl. apply csv_packages_filter.
Qed.

End PackageList.

Example load_package_list_from_csv_rows :
  Fetch.load_package_list_from_csv
    (inr [["requests"; "1"]; []; ["  numpy  "]; ["# comment"]; ["   "]; [" #x"]; ["Flask"]])
  = ["requests"; "numpy"; "Flask"].
Proof. reflexivity. Qed.

(** ** URLs and file names *)

Section Names.

(** X2. After "Handle relative URLs" the URL always starts with a
    scheme, and normalising it again changes nothing. *)
Theorem absolute_url_absolute (download_url : string) :
  PyStr.startswith (absolute_url download_url) "http://"
    || PyStr.startswith (absolute_url download_url) "https://" = true ∧
  absolute_url (absolute_url download_url) = absolute_url download_url.
Proof.
  unfold absolute_url.
  destruct (PyStr.startswith download_url "/") eqn:Hslash; [done|].
  destruct (PyStr.startswith download_url "http://"
            || PyStr.startswith download_url "https://") eqn:Hscheme; simpl; [|done].
  by rewrite Hslash, Hscheme.
Qed.

Lemma contains_char_cons c d s :
  PyStr.contains (String c "") (String d s) = Ascii.eqb c d || PyStr.contains (String c "") s.
Proof.
  simpl. destruct (ascii_dec c d) as [->|Hne].
  - rewrite Ascii.eqb_refl. by destruct s.
  - by rewrite (proj2 (Ascii.eqb_neq _ _)).
Qed.

Lemma contains_char_nil c : PyStr.contains (String c "") "" = false.
Proof. done. Qed.

(** [os.path.basename] returns a name without a slash. *)
Lemma basename_no_slash p : PyStr.contains "/" (PyStr.basename p) = false.
Proof.
  induction p as [|c p IH]; [done|].
  change (PyStr.basename (String c p))
    with (if Ascii.eqb c "/"%char then PyStr.basename p
          else if PyStr.contains "/" p then PyStr.basename p else String c p).
  destruct (Ascii.eqb c "/"%char) eqn:Hc; [done|].
  destruct (PyStr.contains "/" p) eqn:Hp; [done|].
  rewrite contains_char_cons, Hp. rewrite Ascii.eqb_sym in Hc. by rewrite Hc.
Qed.

Lemma prefix_cons_ne c old d s : c ≠ d → String.prefix (String c old) (String d s) = false.
Proof. intros Hne. simpl. by destruct (ascii_dec c d). Qed.

Lemma replace_from_cons old new c s :
  PyStr.replace_from old new 0 (String c s)
  = if String.prefix old (String c s)
    then new +:+ PyStr.replace_from old new (String.length old - 1) s
    else String c (PyStr.replace_from old new 0 s).
Proof. done. Qed.

(** A replacement whose pattern starts with a dot passes over a prefix
    without dots. *)
Lemma replace_from_no_dot old new a s :
  PyStr.contains "." a = false →
  PyStr.replace_from (String "."%char old) new 0 (a +:+ s)
  = a +:+ PyStr.replace_from (String "."%char old) new 0 s.
Proof.
  induction a as [|c a IH]; [done|].
  rewrite contains_char_cons. intros [Hc Ha]%orb_false_elim.
  apply Ascii.eqb_neq in Hc.
  change (String c a +:+ s) with (String c (a +:+ s)).
  rewrite replace_from_cons, prefix_cons_ne by done. by rewrite IH.
Qed.

Lemma replace_no_dot old new a c s :
  PyStr.contains "." a = false → c ≠ "."%char →
  PyStr.replace (a +:+ String c s) (String "."%char old) new
  = a +:+ String c (PyStr.replace s (String "."%char old) new).
Proof.
  intros Ha Hc. unfold PyStr.replace. rewrite replace_from_no_dot by done.
  by rewrite replace_from_cons, prefix_cons_ne.
Qed.

Lemma split_head_prefix sep a s :
  PyStr.contains (String sep "") a = false →
  PyStr.split_head sep (a +:+ String sep s) = a.
Proof.
  induction a as [|c a IH]; simpl.
  - by rewrite Ascii.eqb_refl.
  - intros Hc. change (PyStr.contains (String sep "") (String c a) = false) in Hc.
    rewrite contains_char_cons in Hc. apply orb_false_elim in Hc as [Hc Ha].
    rewrite Ascii.eqb_sym, Hc. by rewrite IH.
Qed.

(** X3. A file called [name-rest], where [name] has neither a dash nor
    a dot, has the lower-cased [name] as its key, whatever follows the
    first dash (version, tags, archive suffix). *)
Theorem extract_package_name_prefix (name rest : string) :
  PyStr.contains "-" name = false →
  PyStr.contains "." name = false →
  extract_package_name (name +:+ "-" +:+ rest) = Some (PyStr.lower name).
Proof.
  intros Hdash Hdot. unfold extract_package_name.
  change (name +:+ "-" +:+ rest) with (name +:+ String "-"%char rest).
  rewrite !replace_no_dot by done.
  by rewrite split_head_prefix.
Qed.

End Names.

Lemma extract_package_name_prefix_witness :
  extract_package_name ("Six" +:+ "-" +:+ "1.16.0-py2.py3-none-any.whl") = Some (PyStr.lower "Six").
Proof.
  apply (extract_package_name_prefix "Six" "1.16.0-py2.py3-none-any.whl").
  - reflexivity.
  - reflexivity.
Defined.

(** ** The index and the resolver *)

Section IndexContents.

Lemma load_item_elem item key (downloaded : gset string) :
  key ∈ load_item item downloaded →
  key ∈ downloaded ∨
  (PyStr.path_suffix item ∈ [".whl"; ".tar.gz"; ".zip"] ∧
   ∃ p, extract_package_name item = Some p ∧ p ≠ "" ∧ key = PyStr.lower p).
Proof.
  unfold load_item. case_bool_decide as Hs; [|by left].
  destruct (extract_package_name item) as [p|]; [|by left].
  destruct (PyStr.truthy p) eqn:Ht; [|by left].
  intros [->%elem_of_singleton|Hin]%elem_of_union; [|by left].
  right. split; [done|]. exists p. split; [done|]. split; [by destruct p|done].
Qed.

Lemma foldr_load_item_elem items key (downloaded : gset string) :
  key ∈ foldr load_item downloaded items →
  key ∈ downloaded ∨
  ∃ item, item ∈ items ∧ PyStr.path_suffix item ∈ [".whl"; ".tar.gz"; ".zip"] ∧
          ∃ p, extract_package_name item = Some p ∧ p ≠ "" ∧ key = PyStr.lower p.
Proof.
  induction items as [|x items IH]; simpl; [by left|].
  intros [Hin|[Hs Hp]]%load_item_elem.
  - destruct (IH Hin) as [?|(item & ? & ?)]; [by left|].
    right. exists item. split; [by right|done].
  - right. exists x. split; [left|done].
Qed.

(** X4. The index a new downloader builds from a directory: a key is in
    it exactly when the directory holds a file with the suffix [.whl] or
    [.zip] whose name gives that key; files with any other suffix, the
    [.tar.gz] archives among them, contribute nothing.  Building the
    index leaves the directory as it is. *)
Theorem init_index_contents (history : list string) (dir : gmap string (list Byte.byte))
    (key : string) :
  (key ∈ downloaded_packages (init history dir) ↔
   ∃ item p, item ∈ dom dir ∧ PyStr.path_suffix item ∈ [".whl"; ".zip"] ∧
             extract_package_name item = Some p ∧ p ≠ "" ∧ key = PyStr.lower p) ∧
  files (init history dir) = dir ∧
  requested (init history dir) = history.
Proof.
  split; [|done]. split.
  - unfold init, load_existing_packages, iterdir. simpl.
    intros [Hin|(item & Hin & Hs & p & Hp & Hne & ->)]%foldr_load_item_elem;
      [by apply not_elem_of_empty in Hin|].
    exists item, p. split; [by apply elem_of_elements in Hin|]. split; [|done].
    apply elem_of_cons in Hs as [Hs|Hs]; [rewrite Hs; left|].
    apply elem_of_cons in Hs as [Hs|Hs]; [by apply path_suffix_not_tar_gz in Hs|].
    apply list_elem_of_singleton in Hs as ->. right. left.
  - intros (item & p & Hin & Hs & Hp & Hne & ->).
    apply (init_indexes history dir item p); [done| |done|by destruct p].
    apply elem_of_cons in Hs as [->|Hs]; [left|].
    apply list_elem_of_singleton in Hs as ->. right. right. left.
Qed.

End IndexContents.

Section Listing.

(** X5. The file-listing strategy selects the first link to a [.tar.gz]
    or [.zip] file; when there is none, the first link to a [.whl]
    file; when there is neither, nothing. *)
Theorem select_link_cases (links : list (string * string)) :
  (∀ before l after,
     links = before ++ l :: after → source_link l →
     Forall (λ k, ¬ source_link k) before →
     select_link links = Some l.1) ∧
  (∀ before l after,
     links = before ++ l :: after → wheel_link l →
     Forall (λ k, ¬ source_link k) links →
     Forall (λ k, ¬ wheel_link k) before →
     select_link links = Some l.1) ∧
  (Forall (λ k, ¬ source_link k ∧ ¬ wheel_link k) links → select_link links = None).
Proof.
  split; [|split].
  - intros before l after -> Hl Hb. by eapply select_link_precedence.
  - intros before l after -> Hl Hs Hb.
    rewrite select_link_nonempty by (by destruct before).
    rewrite (filter_none source_link) by done. simpl.
    by rewrite (filter_first wheel_link).
  - intros Hn. destruct links as [|k links]; [done|].
    rewrite select_link_nonempty by done.
    rewrite (filter_none source_link), (filter_none wheel_link); [done| |].
    + eapply Forall_impl; [exact Hn|]. by intros ? [_ ?].
    + eapply Forall_impl; [exact Hn|]. by intros ? [? _].
Qed.

End Listing.

Section Resolver.

Variable net : network.

(** X6. [get_package_download_url] returns for every package, with a
    URL that is not empty or with none.  It asks the JSON endpoint
    first and the file-listing page only when the JSON strategy gave no
    usable URL, so at most two requests; a usable URL of the JSON
    strategy is the one returned.  The files and the downloaded set are
    not touched. *)
Theorem get_package_download_url_effect (name : string) (σ : downloader) :
  ∃ v1 v σ',
    get_package_info_from_json net name σ = (inr v1, sent (json_url name) σ) ∧
    get_package_download_url net name σ = (inr v, σ') ∧
    v ≠ Some "" ∧
    (url_truthy v1 = true → v = v1 ∧ new_requests σ σ' = [json_url name]) ∧
    (url_truthy v1 = false → new_requests σ σ' = [simple_url name; json_url name]) ∧
    files σ' = files σ ∧
    downloaded_packages σ' = downloaded_packages σ.
Proof.
  destruct (get_package_info_from_json_returns net name σ) as [v1 H1].
  pose proof (get_package_download_url_cases net name σ v1 H1) as Hc.
  exists v1. destruct (url_truthy v1) eqn:Ht.
  - exists v1, (sent (json_url name) σ). split; [done|]. split; [done|].
    split; [by intros ->|]. split; [by rewrite new_requests_one|]. done.
  - destruct Hc as (v2 & _ & Hc). eexists _, _. split; [done|]. split; [exact Hc|].
    split; [destruct (url_truthy v2) eqn:Ht2; [by intros ->|done]|].
    split; [done|]. split; [by rewrite new_requests_two|done].
Qed.

End Resolver.

(** ** What one fetch does to the state *)

Lemma absolute_url_scheme u :
  PyStr.startswith (absolute_url u) "http://"
    || PyStr.startswith (absolute_url u) "https://" = true.
Proof.
  unfold absolute_url.
  destruct (PyStr.startswith u "/"); [done|].
  by destruct (PyStr.startswith u "http://" || PyStr.startswith u "https://") eqn:Hscheme.
Qed.

Section FetchEffect.

Variable net : network.

Lemma resolution_outcome name σ :
  ∃ v σ1,
    get_package_download_url net name σ = (inr v, σ1) ∧
    (σ1 = sent (json_url name) σ ∨ σ1 = sent (simple_url name) (sent (json_url name) σ)).
Proof.
  destruct (get_package_info_from_json_returns net name σ) as [v1 H1].
  pose proof (get_package_download_url_cases net name σ v1 H1) as Hc.
  destruct (url_truthy v1); [eauto|]. destruct Hc as (v2 & _ & ->). eauto.
Qed.

(** Every run of [download_package], by the way it ends. *)
Lemma download_package_outcome name σ :
  ∃ r σ',
    download_package net name σ = (inr r, σ') ∧
    r_name r = name ∧
    (PyStr.lower name ∈ downloaded_packages σ → r = result_skipped name ∧ σ' = σ) ∧
    (PyStr.lower name ∉ downloaded_packages σ → r_status r ≠ skipped) ∧
    (r_status r = failed →
       downloaded_packages σ' = downloaded_packages σ ∧ is_Some (r_reason r)) ∧
    (r_status r = success →
       downloaded_packages σ' = {[ PyStr.lower name ]} ∪ downloaded_packages σ) ∧
    requested σ `suffix_of` requested σ' ∧
    (length (requested σ') ≤ length (requested σ) + 3)%nat.
Proof.
  destruct (decide (PyStr.lower name ∈ downloaded_packages σ)) as [Hin|Hin].
  { exists (result_skipped name), σ. rewrite download_package_skipped by done.
    repeat split; try done. lia. }
  destruct (resolution_outcome name σ) as (v & σ1 & Hres & Hσ1).
  assert (Hreq : requested σ `suffix_of` requested σ1 ∧
                 (length (requested σ1) ≤ length (requested σ) + 2)%nat ∧
                 downloaded_packages σ1 = downloaded_packages σ).
  { destruct Hσ1 as [-> | ->]; simpl; (split; [|split; [lia|done]]).
    - by apply suffix_cons_r.
    - by do 2 apply suffix_cons_r. }
  destruct Hreq as (Hsuf & Hlen & Hd).
  assert (Hsent : ∀ u, requested σ `suffix_of` u :: requested σ1 ∧
                       (S (length (requested σ1)) ≤ length (requested σ) + 3)%nat).
  { intros u. split; [by apply suffix_cons_r|lia]. }
  unfold download_package. run. rewrite bool_decide_eq_false_2 by done.
  rewrite Hres. simpl.
  destruct v as [u|]; simpl.
  2:{ eexists _, _. split; [done|]. repeat split; try done; try lia; try by eexists. }
  destruct (negb (PyStr.truthy u)); simpl.
  { eexists _, _. split; [done|]. repeat split; try done; try lia; try by eexists. }
  destruct (Hsent (absolute_url u)) as [Hsuf3 Hlen3].
  destruct (net _ _) as [e|resp]; simpl.
  { destruct e; (eexists _, _; split; [done|]); repeat split; try done; try by eexists. }
  destruct (raise_for_status resp) as [e|[]]; simpl.
  { destruct e; (eexists _, _; split; [done|]); repeat split; try done; try by eexists. }
  destruct (total_size_of resp) as [e|L]; simpl.
  { destruct e; (eexists _, _; split; [done|]); repeat split; try done; try by eexists. }
  destruct (decide (PyStr.basename (absolute_url u) ∈ [""; "."; ".."])) as [Hbad|Hok].
  { unfold write_stream, open_wb. run. rewrite bool_decide_eq_true_2 by done. simpl.
    eexists _, _. split; [done|]. repeat split; try done; try by eexists. }
  rewrite write_stream_run by done.
  destruct (stream_error resp) as [e|]; simpl.
  { destruct e; (eexists _, _; split; [done|]); repeat split; try done; try by eexists. }
  destruct (_ && _); simpl.
  { unfold unlink. run. eexists _, _. split; [done|]. simpl.
    repeat split; try done; try by eexists. }
  unfold st_size. simpl. rewrite lookup_insert_eq. simpl.
  eexists _, _. split; [done|]. simpl. rewrite Hd.
  repeat split; try done; try by eexists.
Qed.

(** X7. [download_package] never raises: it returns a result for the
    name it was given.  The result is skipped exactly when the
    lower-cased name is in the downloaded set, and then nothing is
    requested or changed.  The downloaded set never shrinks: a failure
    (which always carries a reason) leaves it as it was, a success adds
    the lower-cased name and nothing else. *)
Theorem download_package_effect (name : string) (σ : downloader) :
  ∃ r σ',
    download_package net name σ = (inr r, σ') ∧
    r_name r = name ∧
    (r_status r = skipped ↔ PyStr.lower name ∈ downloaded_packages σ) ∧
    (r_status r = skipped → r = result_skipped name ∧ σ' = σ) ∧
    (r_status r = failed →
       downloaded_packages σ' = downloaded_packages σ ∧ is_Some (r_reason r)) ∧
    (r_status r = success →
       downloaded_packages σ' = {[ PyStr.lower name ]} ∪ downloaded_packages σ) ∧
    downloaded_packages σ ⊆ downloaded_packages σ'.
Proof.
  destruct (download_package_outcome name σ)
    as (r & σ' & Hrun & Hname & Hskip & Hnoskip & Hfail & Hsucc & _).
  exists r, σ'. split; [done|]. split; [done|].
  assert (Hiff : r_status r = skipped ↔ PyStr.lower name ∈ downloaded_packages σ).
  { split.
    - intros Hs. destruct (decide (PyStr.lower name ∈ downloaded_packages σ)); [done|].
      by destruct (Hnoskip n).
    - by intros [-> _]%Hskip. }
  split; [done|]. split; [by intros ?%Hiff%Hskip|]. split; [done|]. split; [done|].
  destruct (r_status r) eqn:Hst.
  - rewrite Hsucc by done. apply union_subseteq_r.
  - destruct Hiff as [Hiff _]. by destruct (Hskip (Hiff eq_refl)) as [_ ->].
  - by destruct Hfail as [-> _].
Qed.

(** X8. One call of [download_package] issues at most three requests
    (JSON endpoint, file-listing page, download), none when the package
    is skipped, and only adds to the record of requests. *)
Theorem download_package_requests (name : string) (σ : downloader) :
  requested σ `suffix_of` requested (download_package net name σ).2 ∧
  (length (new_requests σ (download_package net name σ).2) ≤ 3)%nat ∧
  (PyStr.lower name ∈ downloaded_packages σ →
   new_requests σ (download_package net name σ).2 = []).
Proof.
  destruct (download_package_outcome name σ)
    as (r & σ' & Hrun & _ & Hskip & _ & _ & _ & Hsuf & Hlen).
  rewrite Hrun. simpl. split; [done|]. split.
  - unfold new_requests. rewrite length_take. lia.
  - intros [_ ->]%Hskip. unfold new_requests. by rewrite Nat.sub_diag.
Qed.

(** What a success tells about the run, with the verification. *)
Lemma download_package_success_verified name σ r σ' :
  download_package net name σ = (inr r, σ') →
  r_status r = success →
  ∃ u σ1 resp L,
    get_package_download_url net name σ = (inr (Some u), σ1) ∧
    net (length (requested σ1)) (absolute_url u) = inr resp ∧
    total_size_of resp = inr L ∧
    (PyStr.basename (absolute_url u) ∉ [""; "."; ".."]) ∧
    (L >? 0) && negb (Z.of_nat (length (concat (chunks resp))) =? L) = false ∧
    r = {| r_name := name; r_status := success; r_reason := None;
           r_filename := Some (PyStr.basename (absolute_url u));
           r_size := Some (Z.of_nat (length (concat (chunks resp))));
           r_url := Some (absolute_url u) |} ∧
    σ' = set_downloaded (λ s, {[ PyStr.lower name ]} ∪ s)
           (set_files (λ dir, <[PyStr.basename (absolute_url u) := concat (chunks resp)]> dir)
              (sent (absolute_url u) σ1)).
Proof.
  unfold download_package. run.
  destruct (bool_decide (PyStr.lower name ∈ downloaded_packages σ)) eqn:Hin;
    [by intros [= <- <-]|].
  destruct (get_package_download_url net name σ) as [[e|[u|]] σ1] eqn:Hres; simpl;
    [destruct e; by intros [= <- <-] | | by intros [= <- <-]].
  rewrite (get_package_download_url_truthy _ _ _ _ _ Hres). simpl.
  destruct (net _ _) as [e|resp] eqn:Hnet; simpl; [destruct e; by intros [= <- <-]|].
  destruct (raise_for_status resp) as [e|[]]; simpl; [destruct e; by intros [= <- <-]|].
  destruct (total_size_of resp) as [e|L] eqn:HL; simpl; [destruct e; by intros [= <- <-]|].
  destruct (decide (PyStr.basename (absolute_url u) ∈ [""; "."; ".."])) as [Hbad|Hok].
  { unfold write_stream, open_wb. run. rewrite bool_decide_eq_true_2 by done.
    simpl. by intros [= <- <-]. }
  rewrite write_stream_run by done.
  destruct (stream_error resp) as [e|]; simpl; [destruct e; by intros [= <- <-]|].
  destruct ((L >? 0) && negb (_ =? L)) eqn:Hver; simpl; [by intros [= <- <-]|].
  unfold st_size. simpl. rewrite lookup_insert_eq. simpl.
  intros [= <- <-] _. by exists u, σ1, resp, L.
Qed.

(** X9. A result with status success is complete: it names the file, the
    size and the absolute URL and has no reason; the file name is the
    basename of the URL, a plain name without a slash that is not a
    directory; the last request was for that URL; the file is in the
    output directory with exactly the bytes of the response, whose
    number is the size reported and, when the response declared a
    positive content length, that length. *)
Theorem success_is_complete (name : string) (σ σ' : downloader) (r : FetchResult) :
  download_package net name σ = (inr r, σ') →
  r_status r = success →
  ∃ f u resp,
    r_filename r = Some f ∧ r_url r = Some u ∧ r_reason r = None ∧
    f = PyStr.basename u ∧ PyStr.contains "/" f = false ∧ (f ∉ [""; "."; ".."]) ∧
    PyStr.startswith u "http://" || PyStr.startswith u "https://" = true ∧
    head (requested σ') = Some u ∧
    net (length (requested σ') - 1)%nat u = inr resp ∧
    files σ' !! f = Some (concat (chunks resp)) ∧
    r_size r = Some (Z.of_nat (length (concat (chunks resp)))) ∧
    (∀ L, content_length resp = Length L → 0 < L →
          Z.of_nat (length (concat (chunks resp))) = L).
Proof.
  intros Hrun Hs.
  destruct (download_package_success_verified _ _ _ _ Hrun Hs)
    as (u & σ1 & resp & L & _ & Hnet & HL & Hok & Hver & -> & ->).
  exists (PyStr.basename (absolute_url u)), (absolute_url u), resp. simpl.
  split; [done|]. split; [done|]. split; [done|]. split; [done|].
  split; [apply basename_no_slash|]. split; [done|].
  split; [apply absolute_url_scheme|]. split; [done|].
  split; [by rewrite Nat.sub_0_r|]. split; [by rewrite lookup_insert_eq|].
  split; [done|].
  intros L' HL' Hpos. unfold total_size_of in HL. rewrite HL' in HL.
  injection HL as <-. lia.
Qed.

(** X10. Once a package has been fetched, every later call in the same
    process for a name with the same lower-cased form is answered
    skipped with reason already_downloaded, without a request and
    without a change of state, whatever was fetched in between. *)
Theorem fetched_package_is_skipped (name : string) (σ σ1 : downloader) (r : FetchResult)
    (later : network) (name' : string) (σ2 : downloader) :
  download_package net name σ = (inr r, σ1) →
  r_status r = success →
  PyStr.lower name' = PyStr.lower name →
  downloaded_packages σ1 ⊆ downloaded_packages σ2 →
  download_package later name' σ2 = (inr (result_skipped name'), σ2).
Proof.
  intros Hrun Hs Hlow Hsub.
  destruct (download_package_success_verified _ _ _ _ Hrun Hs)
    as (u & σr & resp & L & _ & _ & _ & _ & _ & _ & ->).
  apply download_package_skipped. rewrite Hlow. apply Hsub. simpl.
  apply elem_of_union_l, elem_of_singleton. done.
Qed.

End FetchEffect.

Lemma success_is_complete_witness :
  ∃ f u resp,
    r_filename (Result "alpha" success None (Some "alpha-1.0.tar.gz") (Some 200)
                  (Some (host +:+ "alpha-1.0.tar.gz"))) = Some f ∧
    r_url (Result "alpha" success None (Some "alpha-1.0.tar.gz") (Some 200)
             (Some (host +:+ "alpha-1.0.tar.gz"))) = Some u ∧
    r_reason (Result "alpha" success None (Some "alpha-1.0.tar.gz") (Some 200)
                (Some (host +:+ "alpha-1.0.tar.gz"))) = None ∧
    f = PyStr.basename u ∧ PyStr.contains "/" f = false ∧ (f ∉ [""; "."; ".."]) ∧
    PyStr.startswith u "http://" || PyStr.startswith u "https://" = true ∧
    head (requested (download_package registry "alpha" fresh).2) = Some u ∧
    registry (length (requested (download_package registry "alpha" fresh).2) - 1)%nat u
      = inr resp ∧
    files (download_package registry "alpha" fresh).2 !! f = Some (concat (chunks resp)) ∧
    r_size (Result "alpha" success None (Some "alpha-1.0.tar.gz") (Some 200)
              (Some (host +:+ "alpha-1.0.tar.gz")))
      = Some (Z.of_nat (length (concat (chunks resp)))) ∧
    (∀ L, content_length resp = Length L → 0 < L →
          Z.of_nat (length (concat (chunks resp))) = L).
Proof.
  apply (success_is_complete registry "alpha" fresh (download_package registry "alpha" fresh).2
           (Result "alpha" success None (Some "alpha-1.0.tar.gz") (Some 200)
              (Some (host +:+ "alpha-1.0.tar.gz")))).
  - vm_compute. reflexivity.
  - reflexivity.
Defined.

Lemma fetched_package_is_skipped_witness :
  download_package registry "ALPHA" (download_package registry "alpha" fresh).2
  = (inr (result_skipped "ALPHA"), (download_package registry "alpha" fresh).2).
Proof.
  apply (fetched_package_is_skipped registry "alpha" fresh
           (download_package registry "alpha" fresh).2
           (Result "alpha" success None (Some "alpha-1.0.tar.gz") (Some 200)
              (Some (host +:+ "alpha-1.0.tar.gz")))
           registry "ALPHA" (download_package registry "alpha" fresh).2).
  - vm_compute. reflexivity.
  - reflexivity.
  - reflexivity.
  - reflexivity.
Defined.

(** ** A pass over the package list *)

(** X11. The timeout of [future.result] in [download_all_packages]
    never expires.  For a pool of positive width, the list returned
    holds, for the futures in their order of completion, the result
    each call returned, whenever it ended, and the
    failed/processing_error record only for a call that raised. *)
Theorem download_all_packages_own_results
    (execution : nat → string → exn + FetchResult) (finish : nat → Z) (sched : nat → nat)
    (max_workers : Z) (package_list : list string) :
  0 < max_workers →
  ∃ yielded,
    yielded ≡ₚ submit_all execution finish package_list ∧
    download_all_packages execution finish sched max_workers package_list
      = inr (map contribution yielded).
Proof.
  intros Hw. unfold download_all_packages.
  replace (max_workers <=? 0) with false by lia.
  destruct (completed_loop_results sched (length package_list) 0 0
              (submit_all execution finish package_list) [])
    as (yielded & -> & Hperm).
  { unfold submit_all. by rewrite length_imap. }
  by exists yielded.
Qed.

Lemma download_all_packages_own_results_witness :
  ∃ yielded,
    yielded ≡ₚ submit_all (second_raises registry) (λ i, 400 * Z.of_nat i) ["alpha"; "beta"; "gamma"] ∧
    download_all_packages (second_raises registry) (λ i, 400 * Z.of_nat i) (λ i, (2 * i)%nat) 2
      ["alpha"; "beta"; "gamma"] = inr (map contribution yielded).
Proof.
  apply (download_all_packages_own_results (second_raises registry) (λ i, 400 * Z.of_nat i)
           (λ i, (2 * i)%nat) 2 ["alpha"; "beta"; "gamma"]).
  lia.
Defined.

(** ** Counts *)

Section Counts.

Context {F : Type}.
Variable int_truediv : Z → Z → F.
Variable float_mul_int : F → Z → F.
Variable float_div_int : F → Z → F.

Lemma len_with_status_cons s r results :
  len (with_status s (r :: results))
  = (if decide (r_status r = s) then 1 else 0) + len (with_status s results).
Proof.
  unfold with_status, len. rewrite filter_cons.
  destruct (decide (r_status r = s)); simpl length; lia.
Qed.

(** X12. In the statistics the three counts add up to the total, none is
    negative, and the failed count is the number of names [main] writes
    to the failed list, which are names of results. *)
Theorem generate_statistics_counts (results : list FetchResult) :
  let stats := generate_statistics int_truediv float_mul_int float_div_int results in
  total _ stats = successful _ stats + skipped_count _ stats + failed_count _ stats ∧
  0 ≤ successful _ stats ∧ 0 ≤ skipped_count _ stats ∧ 0 ≤ failed_count _ stats ∧
  failed_count _ stats = len (failed_names results) ∧
  failed_names results ⊆ r_name <$> results.
Proof.
  simpl. split; [|split; [|split; [|split; [|split]]]].
  - induction results as [|r results IH]; [done|].
    rewrite !len_with_status_cons.
    unfold len in *. simpl length.
    destruct (r_status r); repeat case_decide; try done; lia.
  - unfold len. lia.
  - unfold len. lia.
  - unfold len. lia.
  - unfold failed_names, with_status, len. by rewrite length_fmap.
  - unfold failed_names. intros name (r & -> & [_ Hin]%list_elem_of_filter)%list_elem_of_fmap.
    apply list_elem_of_fmap. eauto.
Qed.

End Counts.

(** ** The mirror download *)

Module MirrorDownload.

Import Preprocess.

(** X13. What [find_source_distribution] returns is a source
    distribution listed under one version of [releases], never a wheel;
    among the source distributions of that version a [.tar.gz] file is
    preferred to every other and a [.zip] file to every file that is
    not a [.tar.gz]. *)
Theorem find_source_distribution_sdist (package_info : option metadata) (f : release_file) :
  find_source_distribution package_info = Some f →
  ∃ meta v fs,
    package_info = Some meta ∧
    assoc v (default [] (releases meta)) = Some fs ∧
    f ∈ fs ∧
    packagetype f = Some "sdist" ∧
    (∀ g, g ∈ fs → packagetype g = Some "sdist" → named_with ".tar.gz" g →
          named_with ".tar.gz" f) ∧
    (∀ g, g ∈ fs → packagetype g = Some "sdist" → named_with ".zip" g →
          named_with ".tar.gz" f ∨ named_with ".zip" f).
Proof.
  unfold find_source_distribution.
  destruct package_info as [meta|]; [|done].
  set (rel := default [] (releases meta)).
  match goal with |- context [match ?c with Some _ => _ | None => None end] =>
    destruct c as [v|] eqn:Hv end; [|done].
  clear Hv. intros Hf. exists meta, v.
  destruct (assoc v rel) as [fs|] eqn:Hfs; [|done]. simpl in Hf.
  exists fs. split; [done|]. split; [done|].
  set (P := λ g : release_file, packagetype g = Some "sdist") in *.
  assert (Hsrc : ∀ g, g ∈ filter P fs ↔ P g ∧ g ∈ fs) by (intros; apply list_elem_of_filter).
  destruct (filter P fs) as [|first rest] eqn:Hsf; [done|].
  assert (Hfirst : P first ∧ first ∈ fs) by (apply Hsrc; left).
  set (T := λ g : release_file, Is_true (PyStr.endswith (default "" (filename g)) ".tar.gz")) in *.
  set (Z := λ g : release_file, Is_true (PyStr.endswith (default "" (filename g)) ".zip")) in *.
  destruct (filter T (first :: rest)) as [|t ts] eqn:Htar.
  - assert (Hnot : ∀ g, g ∈ fs → P g → ¬ named_with ".tar.gz" g).
    { intros g Hg Hp Ht. eapply (filter_nil_not_elem_of T); [exact Htar|exact Ht|].
      by apply Hsrc. }
    destruct (filter Z (first :: rest)) as [|z zs] eqn:Hzip.
    + injection Hf as <-. destruct Hfirst as [? ?]. split; [done|]. split; [done|]. split.
      * intros g Hg Hp Ht. by destruct (Hnot g).
      * intros g Hg Hp Hz. exfalso. eapply (filter_nil_not_elem_of Z); [exact Hzip|exact Hz|].
        by apply Hsrc.
    + injection Hf as <-.
      assert (Hz : z ∈ filter Z (first :: rest)) by (rewrite Hzip; left).
      apply list_elem_of_filter in Hz as [Hz [Hp Hin]%Hsrc].
      split; [done|]. split; [done|]. split.
      * intros g Hg Hpg Ht. by destruct (Hnot g).
      * intros. by right.
  - injection Hf as <-.
    assert (Ht : t ∈ filter T (first :: rest)) by (rewrite Htar; left).
    apply list_elem_of_filter in Ht as [Ht [Hp Hin]%Hsrc].
    split; [done|]. split; [done|]. split; [done|]. intros. by left.
Qed.

Section FileDownload.

Context {FS : Type} `{FileSystem FS}.

Lemma truthy_mirror_url mirror_base name :
  PyStr.truthy (mirror_base +:+ "/" +:+ name) = true.
Proof. by destruct mirror_base. Qed.

(** A file that is already there is not requested again. *)
Lemma download_package_file_skips net f download_dir mirror_base (w : world FS) name u :
  filename f = Some name → url f = Some u → PyStr.truthy u = true →
  path_exists (path_join download_dir name) (disk w) = true →
  download_package_file net (Some f) download_dir mirror_base w = (inr true, w).
Proof.
  intros Hn Hu Ht Hex. unfold download_package_file. rewrite Hn, Hu, Ht. simpl.
  destruct (PyStr.contains "pypi.org" u); simpl.
  - rewrite truthy_mirror_url. simpl. unfold try_except, bind, lift, gets. simpl.
    by rewrite Hex.
  - rewrite Ht. simpl. unfold try_except, bind, lift, gets. simpl. by rewrite Hex.
Qed.

(** A file entry without a URL, or with an empty one, is given up before
    the download directory is looked at. *)
Lemma download_package_file_no_url net f download_dir mirror_base (w : world FS) :
  url f = None ∨ url f = Some "" →
  download_package_file net (Some f) download_dir mirror_base w = (inr false, w).
Proof. intros [Hu|Hu]; unfold download_package_file; by rewrite Hu. Qed.

(** X14. [download_package_file] makes no request and writes nothing for
    a file whose path under the download directory exists.  It answers
    [True] when the entry has a URL that is not empty, whatever that URL
    and the mirror; it answers [False] when the URL is missing or empty,
    which is tested before the path is. *)
Theorem download_package_file_present (net : network) (f : release_file)
    (download_dir mirror_base : string) (w : world FS) (name : string) :
  filename f = Some name →
  path_exists (path_join download_dir name) (disk w) = true →
  download_package_file net (Some f) download_dir mirror_base w
    = (inr match url f with
           | Some u => PyStr.truthy u
           | None => false
           end, w).
Proof.
  intros Hn Hex. destruct (url f) as [u|] eqn:Hu.
  - destruct (PyStr.truthy u) eqn:Ht.
    + by eapply download_package_file_skips.
    + apply download_package_file_no_url. right. rewrite Hu. by destruct u.
  - apply download_package_file_no_url. by left.
Qed.

Lemma write_chunks_keeps filepath cs path (w : world FS) :
  keeps_files FS → path_exists path (disk w) = true →
  ∃ w', write_chunks filepath cs w = (inr tt, w') ∧
        requested w' = requested w ∧ path_exists path (disk w') = true.
Proof.
  intros [_ Hwrite]. revert w.
  induction cs as [|chunk cs IH]; intros w Hex; simpl.
  - by exists w.
  - destruct chunk as [|b chunk]; [by apply IH|].
    unfold bind, modify. simpl.
    destruct (IH (World (requested w) (fs_write filepath (b :: chunk) (disk w))))
      as (w' & -> & Hreq & Hex'); [by apply Hwrite|].
    by exists w'.
Qed.

(** X15. A download that breaks off leaves its file behind, and the file
    then counts as downloaded.  The request goes to the URL of the
    entry, or to the file name under the mirror when that URL contains
    [pypi.org]; when the stream of a 200 response raises,
    [download_package_file] answers [False], and every later call for
    the same file answers [True] without a request. *)
Theorem interrupted_download_is_kept (net : network) (f : release_file)
    (download_dir mirror_base : string) (w : world FS) (name u : string)
    (resp : response) (e : exn) :
  let target := if PyStr.contains "pypi.org" u then mirror_base +:+ "/" +:+ name else u in
  keeps_files FS →
  filename f = Some name →
  url f = Some u →
  u ≠ "" →
  path_exists (path_join download_dir name) (disk w) = false →
  is_Some (fs_open_wb (path_join download_dir name) (disk w)) →
  net (length (requested w)) target = inr resp →
  status_code resp = 200 →
  stream_error resp = Some e →
  ∃ w1,
    download_package_file net (Some f) download_dir mirror_base w = (inr false, w1) ∧
    requested w1 = target :: requested w ∧
    ∀ later mirror_base',
      download_package_file later (Some f) download_dir mirror_base' w1 = (inr true, w1).
Proof.
  intros target Hkeep Hn Hu Hne Hex [d Hopen] Hnet Hst Herr.
  assert (Ht : PyStr.truthy u = true) by by destruct u.
  assert (Htt : PyStr.truthy target = true).
  { unfold target. destruct (PyStr.contains "pypi.org" u); [apply truthy_mirror_url|done]. }
  destruct (write_chunks_keeps (path_join download_dir name) (chunks resp)
              (path_join download_dir name) (World (target :: requested w) d) Hkeep)
    as (w1 & Hw & Hreq & Hex1).
  { simpl. by eapply (proj1 Hkeep). }
  exists w1. split; [|split; [done|]].
  - unfold download_package_file. rewrite Hn, Hu, Ht. simpl.
    replace (if PyStr.contains "pypi.org" u
             then Some (mirror_base +:+ "/" +:+ name) else Some u)
      with (Some target) by (unfold target; by destruct (PyStr.contains "pypi.org" u)).
    rewrite Htt. simpl.
    unfold try_except, bind, lift, gets, requests_get, open_wb. simpl.
    rewrite Hex, Hnet. simpl. rewrite Hst. simpl. rewrite Hopen. simpl in *.
    rewrite Hw, Herr. done.
  - intros later mirror_base'. by eapply download_package_file_skips.
Qed.

End FileDownload.

End MirrorDownload.

Lemma flat_disk_keeps_files : Preprocess.keeps_files (gmap string (list Byte.byte)).
Proof.
  split.
  - intros path d d' [= <-]. simpl. apply bool_decide_eq_true_2.
    rewrite lookup_insert_eq. by eexists.
  - intros path file chunk d. simpl. intros Hex%bool_decide_eq_true_1.
    apply bool_decide_eq_true_2. destruct (decide (file = path)) as [->|Hne].
    + rewrite lookup_alter_eq. destruct Hex as [x ->]. by eexists.
    + by rewrite lookup_alter_ne.
Qed.

Lemma find_source_distribution_sdist_witness :
  ∃ meta v fs,
    Some mixed_document = Some meta ∧
    assoc v (default [] (releases meta)) = Some fs ∧
    sdist "pkg-1.0.tar.gz" ∈ fs ∧
    packagetype (sdist "pkg-1.0.tar.gz") = Some "sdist" ∧
    (∀ g, g ∈ fs → packagetype g = Some "sdist" → Preprocess.named_with ".tar.gz" g →
          Preprocess.named_with ".tar.gz" (sdist "pkg-1.0.tar.gz")) ∧
    (∀ g, g ∈ fs → packagetype g = Some "sdist" → Preprocess.named_with ".zip" g →
          Preprocess.named_with ".tar.gz" (sdist "pkg-1.0.tar.gz")
          ∨ Preprocess.named_with ".zip" (sdist "pkg-1.0.tar.gz")).
Proof.
  apply (MirrorDownload.find_source_distribution_sdist (Some mixed_document)
           (sdist "pkg-1.0.tar.gz")).
  reflexivity.
Defined.

Lemma download_package_file_present_witness :
  Preprocess.download_package_file mirror (Some mirror_file) "downloads"
    "https://pypi.tuna.tsinghua.edu.cn/simple"
    (Preprocess.World [] {[ "downloads/alpha-1.0.tar.gz" := [] ]})
  = (inr true, Preprocess.World [] {[ "downloads/alpha-1.0.tar.gz" := [] ]}).
Proof.
  apply (MirrorDownload.download_package_file_present mirror mirror_file "downloads"
           "https://pypi.tuna.tsinghua.edu.cn/simple"
           (Preprocess.World [] {[ "downloads/alpha-1.0.tar.gz" := [] ]})
           "alpha-1.0.tar.gz").
  - reflexivity.
  - vm_compute. reflexivity.
Defined.

(** An entry that exists on disk and has no URL, or an empty one. *)
Example download_package_file_present_no_url :
  let w := Preprocess.World [] {[ "downloads/alpha-1.0.tar.gz" := [] ]} in
  Preprocess.download_package_file mirror
    (Some (ReleaseFile (Some "sdist") (Some "alpha-1.0.tar.gz") None)) "downloads"
    "https://pypi.tuna.tsinghua.edu.cn/simple" w = (inr false, w) ∧
  Preprocess.download_package_file mirror
    (Some (ReleaseFile (Some "sdist") (Some "alpha-1.0.tar.gz") (Some ""))) "downloads"
    "https://pypi.tuna.tsinghua.edu.cn/simple" w = (inr false, w).
Proof. split; reflexivity. Qed.

Lemma interrupted_download_is_kept_witness :
  ∃ w1,
    Preprocess.download_package_file broken_mirror (Some pypi_file) "downloads"
      "https://pypi.tuna.tsinghua.edu.cn/simple" empty_disk = (inr false, w1) ∧
    Preprocess.requested w1
      = "https://pypi.tuna.tsinghua.edu.cn/simple/alpha-1.0.tar.gz"
        :: Preprocess.requested empty_disk ∧
    ∀ later mirror_base',
      Preprocess.download_package_file later (Some pypi_file) "downloads" mirror_base' w1
      = (inr true, w1).
Proof.
  apply (MirrorDownload.interrupted_download_is_kept broken_mirror pypi_file "downloads"
           "https://pypi.tuna.tsinghua.edu.cn/simple" empty_disk
           "alpha-1.0.tar.gz" "https://pypi.org/packages/alpha-1.0.tar.gz"
           (Response 200 None [] (Length 200) [payload Byte.x61 3] (Some RequestException))
           RequestException).
  - apply flat_disk_keeps_files.
  - reflexivity.
  - reflexivity.
  - discriminate.
  - vm_compute. reflexivity.
  - by eexists.
  - reflexivity.
  - reflexivity.
  - reflexivity.
Defined.

(** The same with an entry served by the mirror itself: the request goes
    to the URL of the entry. *)
Example interrupted_download_direct_url :
  let run := Preprocess.download_package_file broken_mirror (Some mirror_file) "downloads"
               "https://pypi.tuna.tsinghua.edu.cn/simple" empty_disk in
  run.1 = inr false ∧
  Preprocess.requested run.2 = ["https://mirror.example/alpha-1.0.tar.gz"] ∧
  Preprocess.disk run.2 !! "downloads/alpha-1.0.tar.gz" = Some (payload Byte.x61 3).
Proof. vm_compute. repeat split. Qed.

(** ** The passes of [process_benign.py] *)

Module Passes.

Import Preprocess.

Section Passes.

Context {FS : Type} `{FileSystem FS} `{Directories FS}.
Variable net : network.

(** The lists [retry_failed_downloads] returns, for any list. *)
Lemma retry_conserves failed_packages download_dir max_retries (w : world FS) :
  ∃ retry_successful retry_failed w',
    retry_failed_downloads net failed_packages download_dir max_retries w
      = (inr (retry_successful, retry_failed), w') ∧
    retry_successful ++ retry_failed ≡ₚ failed_packages.
Proof.
  unfold retry_failed_downloads, retry_failed_downloads_traced, bind.
  destruct failed_packages as [|p ps].
  { by exists [], [], w. }
  destruct (RetryRounds.retry_rounds_history net download_dir max_retries
              (seq 0 (Z.to_nat max_retries)) (p :: ps) [] [] w)
    as (history & w' & Hrun & Hc & Hs & _); [done..|].
  change (last_failing (p :: ps) []) with (p :: ps) in Hrun.
  rewrite Hrun. eexists _, _, w'. split; [done|]. simpl.
  by apply RetryRounds.chained_partition.
Qed.

(** X16. For any list of failed packages, repeated names included, the
    two lists [retry_failed_downloads] returns hold together exactly
    the names it was given, each as often as given.  With no name or
    with [max_retries] not positive nothing is requested or written:
    the failures are returned as they came. *)
Theorem retry_failed_downloads_conserves (failed_packages : list string)
    (download_dir : string) (max_retries : Z) (w : world FS) :
  ∃ retry_successful retry_failed w',
    retry_failed_downloads net failed_packages download_dir max_retries w
      = (inr (retry_successful, retry_failed), w') ∧
    retry_successful ++ retry_failed ≡ₚ failed_packages ∧
    (failed_packages = [] ∨ max_retries ≤ 0 →
     retry_successful = [] ∧ retry_failed = failed_packages ∧ w' = w).
Proof.
  destruct (retry_conserves failed_packages download_dir max_retries w)
    as (rs & rf & w' & Hrun & Hperm).
  exists rs, rf, w'. split; [done|]. split; [done|].
  intros Hedge. revert Hrun.
  unfold retry_failed_downloads, retry_failed_downloads_traced, bind.
  destruct failed_packages as [|p ps]; [by intros [= <- <- <-]|].
  destruct Hedge as [?|Hneg]; [done|].
  replace (Z.to_nat max_retries) with 0%nat by lia. simpl.
  by intros [= <- <- <-].
Qed.

(** The attempt of the first pass never raises. *)
Lemma direct_package_returns package download_dir mirror_base (w : world FS) :
  ∃ ok w', direct_package net package download_dir mirror_base w = (inr ok, w').
Proof.
  unfold direct_package, try_except.
  match goal with |- context [match ?body w with _ => _ end] =>
    destruct (body w) as [[e|ok] w'] end; unfold ret; eauto.
Qed.

Lemma direct_pass_sorts download_dir mirror_base packages successful failed (w : world FS) :
  ∃ ss fs w',
    direct_pass net download_dir mirror_base packages successful failed w
      = (inr (successful ++ ss, failed ++ fs), w') ∧
    ss ++ fs ≡ₚ packages.
Proof.
  revert successful failed w.
  induction packages as [|package rest IH]; intros successful failed w; simpl.
  - exists [], [], w. by rewrite !app_nil_r.
  - unfold bind.
    destruct (direct_package_returns package download_dir mirror_base w) as (ok & w1 & ->).
    destruct ok.
    + destruct (IH (successful ++ [package]) failed w1) as (ss & fs & w' & -> & Hp).
      exists (package :: ss), fs, w'. rewrite <- app_assoc. split; [done|].
      simpl. by rewrite Hp.
    + destruct (IH successful (failed ++ [package]) w1) as (ss & fs & w' & -> & Hp).
      exists ss, (package :: fs), w'. rewrite <- app_assoc. split; [done|].
      by rewrite <- Permutation_middle, Hp.
Qed.

(** X17. The download part of [main]: with an empty package list it
    does nothing; otherwise, when the download directory exists or can
    be created, the first pass and the retry of its failures return,
    and the successful and the failed names reported hold together
    exactly the names of the package list; when the directory is
    missing and cannot be created, the error leaves the function before
    any request. *)
Theorem main_download_accounts (packages : list string) (download_dir mirror_base : string)
    (w : world FS) :
  match packages with
  | [] => main_download net packages download_dir mirror_base w = (inr None, w)
  | _ =>
      match (if path_exists download_dir (disk w) then Some (disk w)
             else makedirs download_dir (disk w)) with
      | Some _ =>
          ∃ successful failed w',
            main_download net packages download_dir mirror_base w
              = (inr (Some (successful, failed)), w') ∧
            successful ++ failed ≡ₚ packages
      | None =>
          main_download net packages download_dir mirror_base w
            = (inl (OtherException "OSError"), w)
      end
  end.
Proof.
  destruct packages as [|p ps]; [done|].
  unfold main_download, download_packages_direct, bind, gets.
  cbv beta iota. simpl fst. simpl snd.
  assert (Hgo : ∀ w0 : world FS, ∃ successful failed w',
    match direct_pass net download_dir mirror_base (p :: ps) [] [] w0 with
    | (inl e, σ') => (inl e, σ')
    | (inr a, σ') =>
        match a.2 with
        | [] => ret (Some (a.1, a.2))
        | _ :: _ =>
            λ σ, match retry_failed_downloads net a.2 download_dir 2 σ with
                 | (inl e, σ'0) => (inl e, σ'0)
                 | (inr a0, σ'0) => ret (Some (a.1 ++ a0.1, a0.2)) σ'0
                 end
        end σ'
    end = (inr (Some (successful, failed)), w') ∧ successful ++ failed ≡ₚ p :: ps).
  { intros w0.
    destruct (direct_pass_sorts download_dir mirror_base (p :: ps) [] [] w0)
      as (ss & fs & w1 & -> & Hp). simpl.
    destruct fs as [|f fs].
    - exists ss, [], w1. done.
    - destruct (retry_conserves (f :: fs) download_dir 2 w1) as (rs & rf & w2 & -> & Hp2).
      exists (ss ++ rs), rf, w2. split; [done|]. simpl.
      by rewrite <- app_assoc, Hp2. }
  destruct (path_exists download_dir (disk w)); [apply Hgo|].
  destruct (makedirs download_dir (disk w)) as [d|]; [apply Hgo|done].
Qed.

End Passes.

End Passes.

Example main_download_scenario :
  (Preprocess.main_download mirror ["alpha"; "beta"] "downloads"
     "https://pypi.tuna.tsinghua.edu.cn/pypi" empty_disk).1
  = inr (Some (["alpha"], ["beta"])).
Proof. vm_compute. reflexivity. Qed.

(** ** Requests of the retry *)

Module RetryRequests.

Import Preprocess.

Section Requests.

Context {FS : Type} `{FileSystem FS}.
Variable net : network.

Lemma write_chunks_requested filepath cs (w : world FS) :
  ∃ w', write_chunks filepath cs w = (inr tt, w') ∧ requested w' = requested w.
Proof.
  revert w. induction cs as [|chunk cs IH]; intros w; simpl.
  - by exists w.
  - destruct chunk as [|b chunk]; [by apply IH|].
    unfold bind, modify. simpl.
    destruct (IH (World (requested w) (fs_write filepath (b :: chunk) (disk w))))
      as (w' & -> & Hreq).
    by exists w'.
Qed.

(** The metadata lookup is one request. *)
Lemma get_package_info_from_mirror_requests package mirror_base (w : world FS) :
  ∃ v w',
    get_package_info_from_mirror net package mirror_base w = (inr v, w') ∧
    length (requested w') = S (length (requested w)).
Proof.
  unfold get_package_info_from_mirror, try_except, bind, requests_get, lift, ret. simpl.
  destruct (net _ _) as [e|r]; simpl; [by eauto|].
  destruct (status_code r =? 200); simpl; [|by eauto].
  destruct (response_json r); simpl; by eauto.
Qed.

(** The file download is at most one request. *)
Lemma download_package_file_requests file_info download_dir mirror_base (w : world FS) :
  ∃ ok w',
    download_package_file net file_info download_dir mirror_base w = (inr ok, w') ∧
    (length (requested w') ≤ S (length (requested w)))%nat.
Proof.
  unfold download_package_file.
  destruct file_info as [f|]; [|exists false, w; split; [done|lia]].
  assert (Hbody : ∀ u : string, ∃ ok w',
    try_except
      (bind (lift (match filename f with
                   | Some n => inr n
                   | None => inl (OtherException "TypeError")
                   end))
         (λ name,
            bind (gets (λ w0 : world FS, path_exists (path_join download_dir name) (disk w0)))
              (λ present,
                 if present : bool then ret true
                 else bind (requests_get net u)
                        (λ response,
                           if status_code response =? 200
                           then bind (open_wb (path_join download_dir name))
                                  (λ _, bind (write_chunks (path_join download_dir name)
                                                (chunks response))
                                          (λ _, match stream_error response with
                                                | Some e => raise e
                                                | None => ret true
                                                end))
                           else ret false))))
      (λ _, ret false) w = (inr ok, w') ∧
    (length (requested w') ≤ S (length (requested w)))%nat).
  { intros u. unfold try_except, bind, lift, gets, requests_get, open_wb, ret, raise. simpl.
    destruct (filename f) as [name|]; simpl; [|exists false, w; split; [done|lia]].
    destruct (path_exists _ _); simpl; [exists true, w; split; [done|lia]|].
    destruct (net _ _) as [e|r]; simpl; [eexists _, _; split; [done|simpl; lia]|].
    destruct (status_code r =? 200); simpl; [|eexists _, _; split; [done|simpl; lia]].
    destruct (fs_open_wb _ _) as [d|]; simpl; [|eexists _, _; split; [done|simpl; lia]].
    destruct (write_chunks_requested (path_join download_dir name) (chunks r)
                (World (u :: requested w) d)) as (w' & -> & Hreq).
    simpl in Hreq.
    destruct (stream_error r); (eexists _, _; split; [done|rewrite Hreq; simpl; lia]). }
  destruct (url f) as [u|]; [|exists false, w; split; [done|lia]].
  destruct (PyStr.truthy u && PyStr.contains "pypi.org" u).
  - destruct (negb (PyStr.truthy _)); [exists false, w; split; [done|lia]|]. apply Hbody.
  - destruct (negb (PyStr.truthy u)); [exists false, w; split; [done|lia]|]. apply Hbody.
Qed.

(** One attempt is at most two requests. *)
Lemma retry_package_requests package download_dir (w : world FS) :
  ∃ ok w',
    retry_package net package download_dir w = (inr ok, w') ∧
    (length (requested w') ≤ length (requested w) + 2)%nat.
Proof.
  unfold retry_package, try_except, bind.
  destruct (get_package_info_from_mirror_requests package
              "https://pypi.tuna.tsinghua.edu.cn/pypi" w) as (v & w1 & -> & Hlen).
  destruct v as [d|]; [|exists false, w1; split; [done|lia]].
  destruct (find_source_distribution (Some d)) as [f|];
    [|exists false, w1; split; [done|lia]].
  destruct (download_package_file_requests (Some f) download_dir
              "https://pypi.tuna.tsinghua.edu.cn/simple" w1) as (ok & w2 & -> & Hlen2).
  exists ok, w2. split; [done|lia].
Qed.

Lemma retry_pass_requests download_dir packages retry_successful still_failed (w : world FS) :
  ∃ rs sf w',
    retry_pass net download_dir packages retry_successful still_failed w
      = (inr (retry_successful ++ rs, still_failed ++ sf), w') ∧
    (length sf ≤ length packages)%nat ∧
    (length (requested w') ≤ length (requested w) + 2 * length packages)%nat.
Proof.
  revert retry_successful still_failed w.
  induction packages as [|package rest IH]; intros retry_successful still_failed w; simpl.
  - exists [], [], w. rewrite !app_nil_r. split; [done|]. simpl. lia.
  - unfold bind.
    destruct (retry_package_requests package download_dir w) as (ok & w1 & -> & Hlen).
    destruct ok.
    + destruct (IH (retry_successful ++ [package]) still_failed w1)
        as (rs & sf & w' & -> & Hsf & Hlen').
      exists (package :: rs), sf, w'. rewrite <- app_assoc. split; [done|]. lia.
    + destruct (IH retry_successful (still_failed ++ [package]) w1)
        as (rs & sf & w' & -> & Hsf & Hlen').
      exists rs, (package :: sf), w'. rewrite <- app_assoc. split; [done|]. simpl. lia.
Qed.

Lemma retry_rounds_requests download_dir max_retries rounds n
    all_retry_successful all_retry_failed history (w : world FS) :
  (length all_retry_failed ≤ n)%nat →
  ∃ result w',
    retry_rounds net download_dir max_retries rounds all_retry_successful
      all_retry_failed history w = (inr result, w') ∧
    (length (requested w') ≤ length (requested w) + 2 * n * length rounds)%nat.
Proof.
  revert all_retry_successful all_retry_failed history w.
  induction rounds as [|retry rounds IH];
    intros all_retry_successful all_retry_failed history w Hn; simpl.
  - eexists _, w. split; [done|]. lia.
  - unfold bind.
    destruct (retry_pass_requests download_dir all_retry_failed [] [] w)
      as (rs & sf & w1 & -> & Hsf & Hlen). simpl.
    destruct (bool_decide (sf = []) || (Z.of_nat retry =? max_retries - 1)).
    + eexists _, w1. split; [done|]. nia.
    + destruct (IH (all_retry_successful ++ rs) sf
                  (history ++ [Round all_retry_failed rs sf]) w1) as (res & w' & -> & Hlen');
        [lia|].
      exists res, w'. split; [done|]. nia.
Qed.

(** X18. [retry_failed_downloads] issues at most two requests for each of
    the initially failed packages in each round: at most
    [2 * len(failed_packages) * max_retries] in all. *)
Theorem retry_failed_downloads_requests (failed_packages : list string)
    (download_dir : string) (max_retries : Z) (w : world FS) :
  (length (requested (retry_failed_downloads net failed_packages download_dir max_retries w).2)
   ≤ length (requested w) + 2 * length failed_packages * Z.to_nat max_retries)%nat.
Proof.
  unfold retry_failed_downloads, retry_failed_downloads_traced, bind.
  destruct failed_packages as [|p ps]; [simpl; lia|].
  destruct (retry_rounds_requests download_dir max_retries (seq 0 (Z.to_nat max_retries))
              (length (p :: ps)) [] (p :: ps) [] w) as (res & w' & -> & Hlen); [done|].
  rewrite length_seq in Hlen. done.
Qed.

End Requests.

End RetryRequests.

(** ** Edge cases of the JSON strategy and of the fetch *)

Section Edges.

Variable net : network.

(** X19. A release file without the [packagetype] key anywhere in the
    list makes the selection raise [KeyError], also when a source
    distribution is listed before it; a missing [url] key on the file
    selected does the same; the JSON strategy turns both into none. *)
Theorem select_artifact_missing_key (files : list release_file) :
  ((∃ f, f ∈ files ∧ packagetype f = None) →
   select_artifact files = inl (OtherException "'packagetype'")) ∧
  (∀ before f after,
     files = before ++ f :: after → Forall complete before → Forall complete after →
     Forall (λ g, ¬ has_type "sdist" g) before →
     has_type "sdist" f → url f = None →
     select_artifact files = inl (OtherException "'url'")) ∧
  (∀ name σ r d v e,
     net (length (requested σ)) (json_url name) = inr r →
     json r = Some d → info_version d = Some v →
     assoc v (default [] (releases d)) = Some files →
     select_artifact files = inl e →
     get_package_info_from_json net name σ = (inr None, sent (json_url name) σ)).
Proof.
  assert (Hraise : ∀ t, (∃ f, f ∈ files ∧ packagetype f = None) →
                        files_of_type t files = inl (OtherException "'packagetype'")).
  { intros t (f & Hin & Hf). induction files as [|g gs IH]; [by apply elem_of_nil in Hin|].
    simpl. destruct (packagetype g) as [p|] eqn:Hg; [|done].
    apply elem_of_cons in Hin as [->|Hin]; [congruence|]. by rewrite IH. }
  split; [|split].
  - intros Hex. unfold select_artifact. by rewrite Hraise.
  - intros before f after -> Hb Ha Hns Hf Hu. unfold select_artifact.
    assert (Hsplit : ∀ t (l1 l2 : list release_file) sel1,
      files_of_type t l1 = inr sel1 →
      files_of_type t (l1 ++ l2) =
        match files_of_type t l2 with inl e => inl e | inr sel2 => inr (sel1 ++ sel2) end).
    { intros t l1 l2. induction l1 as [|g l1 IH]; intros sel1; simpl.
      - intros [= <-]. by destruct (files_of_type t l2).
      - destruct (packagetype g) as [p|]; [|done].
        destruct (files_of_type t l1) as [e|s1]; [done|].
        intros [= <-]. rewrite (IH s1 eq_refl).
        destruct (files_of_type t l2); [done|]. by destruct (String.eqb p t). }
    rewrite (Hsplit "sdist" before (f :: after) []).
    + simpl. rewrite Hf. rewrite (files_of_type_filter _ _ Ha). simpl.
      unfold file_url. by rewrite Hu.
    + rewrite (files_of_type_filter _ _ Hb). by rewrite filter_none.
  - intros name σ r d v e Hnet Hd Hv Hfs He.
    apply get_package_info_from_json_none. rewrite Hnet. simpl.
    do 4 right. by exists d, v, files, e.
Qed.

(** X20. The JSON strategy reads the files of the version named by
    [info.version] alone: when that version is not in [releases], or
    has no files, it yields none whatever the other versions hold; when
    it has files with their keys, it yields the source distribution
    listed first, else the wheel listed first. *)
Theorem json_strategy_latest_release (name : string) (σ : downloader) (r : response)
    (d : metadata) (v : string) :
  net (length (requested σ)) (json_url name) = inr r →
  status_code r ≠ 404 →
  raise_for_status r = inr tt →
  json r = Some d →
  info_version d = Some v →
  match assoc v (default [] (releases d)) with
  | Some fs =>
      Forall complete fs →
      get_package_info_from_json net name σ = (inr (choose fs), sent (json_url name) σ)
  | None =>
      get_package_info_from_json net name σ = (inr None, sent (json_url name) σ)
  end.
Proof.
  intros Hnet Hs Hst Hd Hv.
  destruct (assoc v (default [] (releases d))) as [fs|] eqn:Hfs.
  - intros Hc. by eapply get_package_info_from_json_selects.
  - unfold get_package_info_from_json. run.
    rewrite Hnet. simpl. replace (status_code r =? 404) with false by lia. simpl.
    rewrite Hst. simpl. unfold response_json. rewrite Hd. simpl. rewrite Hv. simpl.
    by rewrite Hfs.
Qed.

(** X21. The reasons of a fetch that fails after resolution, for a
    package that is not in the index and whose URL resolved: a request
    that times out gives timeout, any other transport failure or an
    error status gives network_error, a content-length that is not a
    number gives the message of the error; in these cases no file is
    written.  A stream that raises gives the reason of its exception
    and leaves the bytes received in the output directory.  In no case
    is the package added to the downloaded set. *)
Theorem fetch_failure_reasons (name : string) (σ σ1 : downloader) (u : string) :
  PyStr.lower name ∉ downloaded_packages σ →
  get_package_download_url net name σ = (inr (Some u), σ1) →
  let reason_of e :=
    match e with
    | Timeout => "timeout"
    | RequestException => "network_error"
    | OtherException msg => msg
    end in
  let answer := net (length (requested σ1)) (absolute_url u) in
  let quiet reason :=
    download_package net name σ = (inr (result_failed name reason), sent (absolute_url u) σ1) in
  (∀ e, answer = inl e → quiet (reason_of e)) ∧
  (∀ r, answer = inr r → raise_for_status r ≠ inr tt → quiet "network_error") ∧
  (∀ r msg, answer = inr r → raise_for_status r = inr tt →
            content_length r = BadLength msg → quiet msg) ∧
  (∀ r L e, answer = inr r → raise_for_status r = inr tt → total_size_of r = inr L →
            stream_error r = Some e →
            PyStr.basename (absolute_url u) ∉ [""; "."; ".."] →
            download_package net name σ =
              (inr (result_failed name (reason_of e)),
               set_files (λ dir, <[PyStr.basename (absolute_url u) := concat (chunks r)]> dir)
                 (sent (absolute_url u) σ1))) ∧
  files (sent (absolute_url u) σ1) = files σ ∧
  downloaded_packages (sent (absolute_url u) σ1) = downloaded_packages σ.
Proof.
  intros Hin Hres reason_of answer quiet.
  pose proof (get_package_download_url_truthy net name σ u σ1 Hres) as Ht.
  destruct (get_package_download_url_state net _ _ _ _ Hres) as [Hf Hd].
  split; [|split; [|split; [|split]]].
  - intros e He. unfold quiet, download_package. run.
    rewrite bool_decide_eq_false_2 by done. rewrite Hres, Ht. simpl.
    fold answer. rewrite He. by destruct e.
  - intros r Hr Hst. unfold quiet, download_package. run.
    rewrite bool_decide_eq_false_2 by done. rewrite Hres, Ht. simpl.
    fold answer. rewrite Hr. simpl.
    unfold raise_for_status in *. by destruct (_ && _).
  - intros r msg Hr Hst Hlen. unfold quiet, download_package. run.
    rewrite bool_decide_eq_false_2 by done. rewrite Hres, Ht. simpl.
    fold answer. rewrite Hr. simpl. rewrite Hst. simpl.
    unfold total_size_of. by rewrite Hlen.
  - intros r L e Hr Hst HL He Hok.
    replace (reason_of e) with
      (match e with
       | Timeout => "timeout"
       | RequestException => "network_error"
       | OtherException msg => msg
       end) by done.
    by apply download_package_stream_raises with (L := L).
  - done.
Qed.

End Edges.

Lemma json_strategy_latest_release_witness :
  match assoc "1.0" (default [] (releases (Metadata (Some "1.0")
                                             (Some [("0.9", []); ("1.0", mixed_files)])))) with
  | Some fs =>
      Forall complete fs →
      get_package_info_from_json
        (λ _ _, inr (document mixed_files)) "pkg" fresh
      = (inr (choose fs), sent (json_url "pkg") fresh)
  | None =>
      get_package_info_from_json (λ _ _, inr (document mixed_files)) "pkg" fresh
      = (inr None, sent (json_url "pkg") fresh)
  end.
Proof.
  apply (json_strategy_latest_release (λ _ _, inr (document mixed_files)) "pkg" fresh
           (document mixed_files)
           (Metadata (Some "1.0") (Some [("0.9", []); ("1.0", mixed_files)])) "1.0").
  - reflexivity.
  - discriminate.
  - reflexivity.
  - reflexivity.
  - reflexivity.
Defined.

Lemma fetch_failure_reasons_witness :
  download_package interrupted "alpha" fresh =
    (inr (result_failed "alpha" "timeout"),
     set_files (λ dir, <["alpha-1.0.tar.gz" := payload Byte.x61 3]> dir)
       (sent (host +:+ "alpha-1.0.tar.gz") (sent (json_url "alpha") fresh))).
Proof.
  destruct (fetch_failure_reasons interrupted "alpha" fresh (sent (json_url "alpha") fresh)
              (host +:+ "alpha-1.0.tar.gz"))
    as (_ & _ & _ & Hstream & _).
  - compute_decide.
  - vm_compute. reflexivity.
  - apply (Hstream (Response 200 None [] (Length 200) [payload Byte.x61 3] (Some Timeout))
             200 Timeout).
    + reflexivity.
    + reflexivity.
    + reflexivity.
    + reflexivity.
    + compute_decide.
Defined.
